(** * Reservation-API: the domain layer, embedded and verified

    A shallow embedding of the three aggregates of the hotel booking
    domain ([Availability], [Reservation], [WaitlistEntry]) and of the
    value objects they are built from, of the in-memory repositories and
    of the availability service that calls them, followed by the
    properties of the specification that concern them and by further
    properties read off the code.

    Modelling conventions.
    - Python [int] is unbounded: it is [Z].
    - A [Decimal] is the rational [Q] it denotes.  A [Decimal] built from
      its digits is exact; the result of an arithmetic operation is the
      exact result rounded to the 28 significant digits of the default
      context, half to even ([decimal_round]).  The exponent limits of
      the context (six digits) are not modelled.
    - A [date] is its day number and a [datetime] a number of
      microseconds, both counted from 0001-01-01T00:00:00, the least
      [datetime]; a [timedelta] is a number of microseconds whose [days]
      attribute is the floor of the division by the length of a day, as
      Python normalises it.  Where the code builds a [timedelta] from a
      number of days it is given, or moves a [datetime] by it, the model
      raises [OverflowError] outside the ranges of the two types.
    - A method is a computation over the object it is called on (its
      [self]): it reads attributes, assigns attributes and may raise.  An
      exception does not roll anything back: the state the computation
      stops in is the state the caller observes.
    - The system clock is an argument of the methods that read it; a call
      is given one reading, which stands for every [utcnow()] and
      [today()] it makes.  A reading is taken to lie far enough from the
      end of the [datetime] range for the fixed offsets the code adds to
      it, one day and fourteen days. *)

From Stdlib Require Import ZArith QArith Qfield String List Bool Lia.
Import ListNotations.

Local Open Scope string_scope.
Local Open Scope Z_scope.

(** ** Exceptions and outcomes *)

Inductive exn : Type :=
| ValueError (msg : string)
| ValidationError (msg : string)
| OverflowError.

Inductive outcome (A : Type) : Type :=
| Returned (a : A)
| Raised (e : exn).

Arguments Returned {A} a.
Arguments Raised {A} e.

(** ** Methods: state and exceptions

    [Method S A] is a method body running on an object of class [S] and
    returning an [A].  The second component of the result is the object
    as the method leaves it, whether it returned or raised. *)

Definition Method (S A : Type) : Type := S -> outcome A * S.

Section MethodOps.
Context {S : Type}.

Definition ret {A} (a : A) : Method S A := fun s => (Returned a, s).

Definition bind {A B} (m : Method S A) (k : A -> Method S B) : Method S B :=
  fun s =>
    match m s with
    | (Returned a, s') => k a s'
    | (Raised e, s') => (Raised e, s')
    end.

Definition raise {A} (e : exn) : Method S A := fun s => (Raised e, s).

(** [self.field] *)
Definition attr {A} (field : S -> A) : Method S A :=
  fun s => (Returned (field s), s).

(** [self.field = v] *)
Definition setattr {A} (update : A -> S -> S) (v : A) : Method S unit :=
  fun s => (Returned tt, update v s).

(** [if c: raise e] *)
Definition raise_if (c : bool) (e : exn) : Method S unit :=
  if c then raise e else ret tt.

(** A pure, fallible computation called from a method. *)
Definition call {A} (o : outcome A) : Method S A := fun s => (o, s).

Definition run {A} (m : Method S A) (s : S) : outcome A * S := m s.
End MethodOps.

Declare Scope method_scope.
Delimit Scope method_scope with method.
Notation "x <- m ;; k" := (bind m (fun x => k))
  (at level 61, m at next level, right associativity) : method_scope.
Notation "m ;; k" := (bind m (fun _ => k))
  (at level 61, right associativity) : method_scope.
Local Open Scope method_scope.

(** ** Time *)

Definition date := Z.
Definition datetime := Z.
Definition timedelta := Z.

Definition us_per_hour : Z := 3600000000.
Definition us_per_day : Z := 24 * us_per_hour.

(** [timedelta(days=n)] and [timedelta(hours=n)] *)
Definition timedelta_of_days (n : Z) : timedelta := n * us_per_day.
Definition timedelta_of_hours (n : Z) : timedelta := n * us_per_hour.

(** [td.days]: Python keeps [0 <= seconds < 86400], so [days] is a floor. *)
Definition timedelta_days (td : timedelta) : Z := td / us_per_day.

(** [dt.date()] *)
Definition datetime_date (dt : datetime) : date := dt / us_per_day.

(** Midnight at the start of a calendar date. *)
Definition datetime_of_date (d : date) : datetime := d * us_per_day.

(** The largest magnitude of the [days] of a [timedelta]. *)
Definition timedelta_max_days : Z := 999999999.

(** [timedelta(days=n)] for a number of days the caller supplies. *)
Definition timedelta_new_days (n : Z) : outcome timedelta :=
  if (- timedelta_max_days <=? n) && (n <=? timedelta_max_days)
  then Returned (timedelta_of_days n)
  else Raised OverflowError.

(** [datetime.min] and [datetime.max]: 0001-01-01T00:00:00 and the last
    microsecond of 9999-12-31, day 3652059 of the calendar. *)
Definition datetime_min : datetime := 0.
Definition datetime_max : datetime := 3652059 * us_per_day - 1.

(** [dt + td] *)
Definition datetime_add (dt : datetime) (td : timedelta) : outcome datetime :=
  if (datetime_min <=? dt + td) && (dt + td <=? datetime_max)
  then Returned (dt + td)
  else Raised OverflowError.

(** One reading of the system clock: [datetime.utcnow()] and
    [date.today()]. *)
Record Clock : Type := mkClock {
  utcnow : datetime;
  today : date
}.

(** ** Enumerations (domain/enums.py) *)

Inductive ReservationStatus : Type :=
| PENDING | CONFIRMED | CHECKED_IN | CHECKED_OUT | CANCELLED | NO_SHOW.

Inductive BookingSource : Type := ONLINE | PHONE | WALK_IN | PARTNER.

Inductive RequestType : Type :=
| EARLY_CHECKIN | LATE_CHECKOUT | HIGH_FLOOR | LOW_FLOOR
| SMOKING | NON_SMOKING | SPECIAL_AMENITIES | OTHER.

Inductive Priority : Type := LOW | MEDIUM | HIGH | URGENT.

(** [Priority] is an [int] enumeration; this is its [value]. *)
Definition Priority_value (p : Priority) : Z :=
  match p with LOW => 1 | MEDIUM => 2 | HIGH => 3 | URGENT => 4 end.

Inductive WaitlistStatus : Type :=
| ACTIVE | CONVERTED | EXPIRED | WL_CANCELLED.

Definition ReservationStatus_eqb (a b : ReservationStatus) : bool :=
  match a, b with
  | PENDING, PENDING | CONFIRMED, CONFIRMED | CHECKED_IN, CHECKED_IN
  | CHECKED_OUT, CHECKED_OUT | CANCELLED, CANCELLED | NO_SHOW, NO_SHOW => true
  | _, _ => false
  end.

Definition WaitlistStatus_eqb (a b : WaitlistStatus) : bool :=
  match a, b with
  | ACTIVE, ACTIVE | CONVERTED, CONVERTED | EXPIRED, EXPIRED
  | WL_CANCELLED, WL_CANCELLED => true
  | _, _ => false
  end.

Definition UUID := N.

(** ** Value objects (domain/value_objects.py) *)

Record DateRange : Type := mkDateRange {
  check_in_date : date;
  check_out_date : date
}.

(** [DateRange(check_in=..., check_out=...)]: both validators run, any
    failure makes the construction raise. *)
Definition DateRange_new (clk : Clock) (ci co : date) : outcome DateRange :=
  if ci <? today clk then
    Raised (ValidationError "Check-in date cannot be in the past")
  else if co <=? ci then
    Raised (ValidationError "Check-out must be after check-in")
  else Returned (mkDateRange ci co).

Definition nights (self : DateRange) : Z :=
  check_out_date self - check_in_date self.

Record Money : Type := mkMoney {
  amount : Q;
  currency : string
}.

(** [Money(amount=..., currency=...)] with [amount: Decimal = Field(ge=0)]. *)
Definition Money_new (a : Q) (c : string) : outcome Money :=
  if Qle_bool 0 a then Returned (mkMoney a c)
  else Raised (ValidationError "ensure this value is greater than or equal to 0").

Record GuestCount : Type := mkGuestCount {
  adults : Z;
  children : Z
}.

Record CancellationPolicy : Type := mkCancellationPolicy {
  policy_name : string;
  refund_percentage : Q;
  deadline_hours : Z
}.

Definition CancellationPolicy_valid (p : CancellationPolicy) : Prop :=
  (0 <= refund_percentage p)%Q /\ (refund_percentage p <= 100)%Q /\
  0 <= deadline_hours p.

Definition Money_valid (m : Money) : Prop := (0 <= amount m)%Q.

(** *** Decimal arithmetic

    The default context of [decimal] has a precision of 28 significant
    digits and rounds half to even. *)

Definition decimal_precision : Z := 28.

(** The integer nearest to [n / d], the even one of the two when [n / d]
    lies half way; [n] is not negative and [d] is positive. *)
Definition round_half_even (n d : Z) : Z :=
  let q := n / d in
  let r := n mod d in
  if 2 * r <? d then q
  else if d <? 2 * r then q + 1
  else if Z.even q then q else q + 1.

(** How many factors of ten [d] must take for [n / d] to drop below
    [hi]. *)
Fixpoint shift_down (hi : Z) (fuel : nat) (n d : Z) : Z :=
  match fuel with
  | O => 0
  | S fuel' =>
      if hi * d <=? n
      then 1 + shift_down hi fuel' n (10 * d)
      else 0
  end.

(** How many factors of ten [n] must take for [n / d] to reach [lo]. *)
Fixpoint shift_up (lo : Z) (fuel : nat) (n d : Z) : Z :=
  match fuel with
  | O => 0
  | S fuel' =>
      if n <? lo * d
      then 1 + shift_up lo fuel' (10 * n) d
      else 0
  end.

(** A positive [n / d] rounded to 28 significant digits, as a numerator
    and a denominator: the quotient is scaled by a power of ten into
    [10^27 <= n * 10^a / (d * 10^b) < 10^28], rounded to an integer and
    scaled back.  The fuel is enough for each scaling to reach its bound
    ([decimal_round_pos_normalised]). *)
Definition decimal_round_pos (n d : Z) : Z * Z :=
  let b := shift_down (10 ^ decimal_precision) (Z.to_nat (Z.log2 n + 1)) n d in
  let a := shift_up (10 ^ (decimal_precision - 1))
             (Z.to_nat (Z.log2 d + decimal_precision)) n (d * 10 ^ b) in
  (round_half_even (n * 10 ^ a) (d * 10 ^ b) * 10 ^ b, 10 ^ a).

(** The value the context gives to an operation whose exact result is
    [x]. *)
Definition decimal_round (x : Q) : Q :=
  let r := Qred x in
  if Qnum r =? 0 then 0%Q
  else
    let res := decimal_round_pos (Z.abs (Qnum r)) (Zpos (Qden r)) in
    (Z.sgn (Qnum r) * fst res) # Z.to_pos (snd res).


(** [CancellationPolicy.calculate_refund]: the quotient
    [refund_percentage / 100] and its product with the total are each
    rounded by the context. *)
Definition calculate_refund (self : CancellationPolicy) (total_amount : Money)
    (cancellation_date check_in : date) : outcome Money :=
  let hours_until_checkin := (check_in - cancellation_date) * 24 in
  let refund_amount :=
    if deadline_hours self <=? hours_until_checkin
    then decimal_round
           (amount total_amount * decimal_round (refund_percentage self / 100))
    else 0%Q in
  Money_new refund_amount (currency total_amount).


(** ** Availability (domain/entities/availability.py) *)

Record Availability : Type := mkAvailability {
  av_room_type_id : string;
  availability_date : date;
  total_rooms : Z;
  reserved_rooms : Z;
  blocked_rooms : Z;
  overbooking_threshold : Z;
  last_updated : datetime;
  av_version : Z
}.

Definition set_reserved_rooms (v : Z) (a : Availability) : Availability :=
  mkAvailability (av_room_type_id a) (availability_date a) (total_rooms a)
    v (blocked_rooms a) (overbooking_threshold a) (last_updated a)
    (av_version a).

Definition set_blocked_rooms (v : Z) (a : Availability) : Availability :=
  mkAvailability (av_room_type_id a) (availability_date a) (total_rooms a)
    (reserved_rooms a) v (overbooking_threshold a) (last_updated a)
    (av_version a).

Definition set_last_updated (v : datetime) (a : Availability) : Availability :=
  mkAvailability (av_room_type_id a) (availability_date a) (total_rooms a)
    (reserved_rooms a) (blocked_rooms a) (overbooking_threshold a) v
    (av_version a).

Definition set_av_version (v : Z) (a : Availability) : Availability :=
  mkAvailability (av_room_type_id a) (availability_date a) (total_rooms a)
    (reserved_rooms a) (blocked_rooms a) (overbooking_threshold a)
    (last_updated a) v.

Definition available_rooms (self : Availability) : Z :=
  total_rooms self - reserved_rooms self - blocked_rooms self.

Definition check_availability (self : Availability) (count : Z) : bool :=
  (count <=? available_rooms self)
  || (count <=? available_rooms self + overbooking_threshold self).

Module AvailabilityMethods.

Definition reserve_rooms (clk : Clock) (count : Z) : Method Availability unit :=
  ok <- attr (fun self => check_availability self count) ;;
  raise_if (negb ok) (ValueError "Insufficient availability") ;;
  r <- attr reserved_rooms ;;
  setattr set_reserved_rooms (r + count) ;;
  setattr set_last_updated (utcnow clk) ;;
  v <- attr av_version ;;
  setattr set_av_version (v + 1).

Definition release_rooms (clk : Clock) (count : Z) : Method Availability unit :=
  r <- attr reserved_rooms ;;
  raise_if (r <? count) (ValueError "Cannot release more than reserved") ;;
  r <- attr reserved_rooms ;;
  setattr set_reserved_rooms (r - count) ;;
  setattr set_last_updated (utcnow clk) ;;
  v <- attr av_version ;;
  setattr set_av_version (v + 1).

Definition block_rooms (clk : Clock) (count : Z) (reason : string)
  : Method Availability unit :=
  b <- attr blocked_rooms ;;
  t <- attr total_rooms ;;
  raise_if (t <? b + count)
    (ValueError "Cannot block more rooms than total available") ;;
  b <- attr blocked_rooms ;;
  setattr set_blocked_rooms (b + count) ;;
  setattr set_last_updated (utcnow clk) ;;
  v <- attr av_version ;;
  setattr set_av_version (v + 1).

Definition unblock_rooms (clk : Clock) (count : Z) : Method Availability unit :=
  b <- attr blocked_rooms ;;
  raise_if (b <? count) (ValueError "Cannot unblock more than blocked") ;;
  b <- attr blocked_rooms ;;
  setattr set_blocked_rooms (b - count) ;;
  setattr set_last_updated (utcnow clk) ;;
  v <- attr av_version ;;
  setattr set_av_version (v + 1).

End AvailabilityMethods.

(** The capacity rule that [validate_capacity] states. *)
Definition capacity_invariant (a : Availability) : Prop :=
  reserved_rooms a + blocked_rooms a <= total_rooms a + overbooking_threshold a.

(** ** Reservation (domain/entities/reservation.py) *)

Record SpecialRequest : Type := mkSpecialRequest {
  request_id : UUID;
  request_type : RequestType;
  description : string;
  fulfilled : bool;
  notes : option string;
  sr_created_at : datetime
}.

Record Reservation : Type := mkReservation {
  reservation_id : UUID;
  confirmation_code : string;
  guest_id : UUID;
  room_type_id : string;
  date_range : DateRange;
  guest_count : GuestCount;
  total_amount : Money;
  cancellation_policy : CancellationPolicy;
  status : ReservationStatus;
  booking_source : BookingSource;
  special_requests : list SpecialRequest;
  created_at : datetime;
  modified_at : datetime;
  created_by : string;
  version : Z
}.

Definition set_room_type_id (v : string) (r : Reservation) : Reservation :=
  mkReservation (reservation_id r) (confirmation_code r) (guest_id r) v
    (date_range r) (guest_count r) (total_amount r) (cancellation_policy r)
    (status r) (booking_source r) (special_requests r) (created_at r)
    (modified_at r) (created_by r) (version r).

Definition set_date_range (v : DateRange) (r : Reservation) : Reservation :=
  mkReservation (reservation_id r) (confirmation_code r) (guest_id r)
    (room_type_id r) v (guest_count r) (total_amount r) (cancellation_policy r)
    (status r) (booking_source r) (special_requests r) (created_at r)
    (modified_at r) (created_by r) (version r).

Definition set_guest_count (v : GuestCount) (r : Reservation) : Reservation :=
  mkReservation (reservation_id r) (confirmation_code r) (guest_id r)
    (room_type_id r) (date_range r) v (total_amount r) (cancellation_policy r)
    (status r) (booking_source r) (special_requests r) (created_at r)
    (modified_at r) (created_by r) (version r).

Definition set_total_amount (v : Money) (r : Reservation) : Reservation :=
  mkReservation (reservation_id r) (confirmation_code r) (guest_id r)
    (room_type_id r) (date_range r) (guest_count r) v (cancellation_policy r)
    (status r) (booking_source r) (special_requests r) (created_at r)
    (modified_at r) (created_by r) (version r).

Definition set_status (v : ReservationStatus) (r : Reservation) : Reservation :=
  mkReservation (reservation_id r) (confirmation_code r) (guest_id r)
    (room_type_id r) (date_range r) (guest_count r) (total_amount r)
    (cancellation_policy r) v (booking_source r) (special_requests r)
    (created_at r) (modified_at r) (created_by r) (version r).

Definition set_special_requests (v : list SpecialRequest) (r : Reservation)
  : Reservation :=
  mkReservation (reservation_id r) (confirmation_code r) (guest_id r)
    (room_type_id r) (date_range r) (guest_count r) (total_amount r)
    (cancellation_policy r) (status r) (booking_source r) v
    (created_at r) (modified_at r) (created_by r) (version r).

Definition set_modified_at (v : datetime) (r : Reservation) : Reservation :=
  mkReservation (reservation_id r) (confirmation_code r) (guest_id r)
    (room_type_id r) (date_range r) (guest_count r) (total_amount r)
    (cancellation_policy r) (status r) (booking_source r) (special_requests r)
    (created_at r) v (created_by r) (version r).

Definition set_version (v : Z) (r : Reservation) : Reservation :=
  mkReservation (reservation_id r) (confirmation_code r) (guest_id r)
    (room_type_id r) (date_range r) (guest_count r) (total_amount r)
    (cancellation_policy r) (status r) (booking_source r) (special_requests r)
    (created_at r) (modified_at r) (created_by r) v.

(** The three validators of the class.  Pydantic runs them when a
    [Reservation] is constructed; the class sets no [validate_assignment],
    so an attribute assignment does not run them. *)

Definition validate_date_range (v : DateRange) : outcome DateRange :=
  if nights v <? 1 then Raised (ValueError "Reservation must be at least 1 night")
  else if 30 <? nights v then Raised (ValueError "Maximum stay is 30 nights")
  else Returned v.

Definition validate_guest_count (v : GuestCount) : outcome GuestCount :=
  if adults v <? 1 then Raised (ValueError "At least 1 adult required")
  else if children v <? 0 then Raised (ValueError "Children count cannot be negative")
  else Returned v.

Definition validate_amount (v : Money) : outcome Money :=
  if Qle_bool (amount v) 0 then Raised (ValueError "Total amount must be greater than 0")
  else Returned v.

(** [Reservation.create]: [new_id] is the [uuid4()] drawn for the
    reservation, the timestamps default to the clock. *)
Definition Reservation_create (clk : Clock) (new_id : UUID)
    (guest : UUID) (room_type : string) (dr : DateRange) (gc : GuestCount)
    (total : Money) (policy : CancellationPolicy) (source : BookingSource)
    (code : string) (by_whom : string) : outcome Reservation :=
  match validate_date_range dr, validate_guest_count gc, validate_amount total with
  | Returned dr', Returned gc', Returned total' =>
      Returned (mkReservation new_id code guest room_type dr' gc' total' policy
                  PENDING source [] (utcnow clk) (utcnow clk) by_whom 1)
  | _, _, _ => Raised (ValidationError "validation error for Reservation")
  end.

(** The invariants of the data model, as the validators state them. *)
Definition Reservation_invariants (r : Reservation) : Prop :=
  1 <= nights (date_range r) <= 30 /\
  1 <= adults (guest_count r) /\
  (0 < amount (total_amount r))%Q.

Definition is_modifiable (clk : Clock) (self : Reservation) : bool :=
  (ReservationStatus_eqb (status self) PENDING
   || ReservationStatus_eqb (status self) CONFIRMED)
  && (today clk + 1 <=? check_in_date (date_range self)).

Definition is_cancellable (self : Reservation) : bool :=
  ReservationStatus_eqb (status self) PENDING
  || ReservationStatus_eqb (status self) CONFIRMED.

Definition Reservation_calculate_refund (self : Reservation)
    (cancellation_date : date) : outcome Money :=
  calculate_refund (cancellation_policy self) (total_amount self)
    cancellation_date (check_in_date (date_range self)).

(** Truth value of a [str] argument: the empty string is false. *)
Definition truthy_str (s : string) : bool :=
  match s with EmptyString => false | _ => true end.

Module ReservationMethods.

(** [if new_x: self.x = new_x] for an optional value object: an instance
    of a pydantic model is always true, [None] is false. *)
Definition assign_if_given {A} (update : A -> Reservation -> Reservation)
    (new_value : option A) : Method Reservation unit :=
  match new_value with
  | Some v => setattr update v
  | None => ret tt
  end.

Definition modify (clk : Clock) (new_date_range : option DateRange)
    (new_guest_count : option GuestCount) (new_room_type_id : option string)
    (new_total_amount : option Money) : Method Reservation unit :=
  m <- attr (is_modifiable clk) ;;
  raise_if (negb m)
    (ValueError "Reservation cannot be modified in current state") ;;
  assign_if_given set_date_range new_date_range ;;
  assign_if_given set_guest_count new_guest_count ;;
  match new_room_type_id with
  | Some s => if truthy_str s then setattr set_room_type_id s else ret tt
  | None => ret tt
  end ;;
  assign_if_given set_total_amount new_total_amount ;;
  setattr set_modified_at (utcnow clk) ;;
  v <- attr version ;;
  setattr set_version (v + 1).

Definition add_special_request (clk : Clock) (new_id : UUID)
    (ty : RequestType) (desc : string) : Method Reservation unit :=
  let special_request :=
    mkSpecialRequest new_id ty desc false None (utcnow clk) in
  l <- attr special_requests ;;
  setattr set_special_requests (l ++ [special_request])%list ;;
  setattr set_modified_at (utcnow clk).

Definition confirm (clk : Clock) (payment_confirmed : bool)
  : Method Reservation unit :=
  st <- attr status ;;
  raise_if (negb (ReservationStatus_eqb st PENDING))
    (ValueError "Can only confirm PENDING reservations") ;;
  raise_if (negb payment_confirmed) (ValueError "Payment must be confirmed") ;;
  setattr set_status CONFIRMED ;;
  setattr set_modified_at (utcnow clk) ;;
  v <- attr version ;;
  setattr set_version (v + 1).

Definition check_in (clk : Clock) (room_number : string)
  : Method Reservation unit :=
  st <- attr status ;;
  raise_if (negb (ReservationStatus_eqb st CONFIRMED))
    (ValueError "Can only check in CONFIRMED reservations") ;;
  dr <- attr date_range ;;
  raise_if (datetime_date (utcnow clk) <? check_in_date dr)
    (ValueError "Cannot check in before check-in date") ;;
  setattr set_status CHECKED_IN ;;
  setattr set_modified_at (utcnow clk) ;;
  v <- attr version ;;
  setattr set_version (v + 1).

Definition check_out (clk : Clock) : Method Reservation Money :=
  st <- attr status ;;
  raise_if (negb (ReservationStatus_eqb st CHECKED_IN))
    (ValueError "Can only check out CHECKED_IN reservations") ;;
  setattr set_status CHECKED_OUT ;;
  setattr set_modified_at (utcnow clk) ;;
  v <- attr version ;;
  setattr set_version (v + 1) ;;
  attr total_amount.

Definition cancel (clk : Clock) (reason : string) : Method Reservation Money :=
  c <- attr is_cancellable ;;
  raise_if (negb c)
    (ValueError "Reservation cannot be cancelled in current state") ;;
  refund <- attr (fun self => Reservation_calculate_refund self (today clk)) ;;
  refund_amount <- call refund ;;
  setattr set_status CANCELLED ;;
  setattr set_modified_at (utcnow clk) ;;
  v <- attr version ;;
  setattr set_version (v + 1) ;;
  ret refund_amount.

Definition mark_no_show (clk : Clock) : Method Reservation unit :=
  st <- attr status ;;
  raise_if (negb (ReservationStatus_eqb st CONFIRMED
                  || ReservationStatus_eqb st PENDING))
    (ValueError "Can only mark as no-show for PENDING or CONFIRMED reservations") ;;
  setattr set_status NO_SHOW ;;
  setattr set_modified_at (utcnow clk) ;;
  v <- attr version ;;
  setattr set_version (v + 1).

End ReservationMethods.

(** The calls a client can make on a [Reservation], with their arguments. *)
Inductive ReservationOp : Type :=
| OpModify (new_date_range : option DateRange)
           (new_guest_count : option GuestCount)
           (new_room_type_id : option string)
           (new_total_amount : option Money)
| OpAddSpecialRequest (new_id : UUID) (ty : RequestType) (desc : string)
| OpConfirm (payment_confirmed : bool)
| OpCheckIn (room_number : string)
| OpCheckOut
| OpCancel (reason : string)
| OpMarkNoShow.

(** Discards the value a method returns. *)
Definition void {S A} (m : Method S A) : Method S unit :=
  _ <- m ;; ret tt.

Definition Reservation_exec (clk : Clock) (op : ReservationOp)
  : Method Reservation unit :=
  match op with
  | OpModify dr gc rt ta => ReservationMethods.modify clk dr gc rt ta
  | OpAddSpecialRequest i ty d => ReservationMethods.add_special_request clk i ty d
  | OpConfirm p => ReservationMethods.confirm clk p
  | OpCheckIn n => ReservationMethods.check_in clk n
  | OpCheckOut => void (ReservationMethods.check_out clk)
  | OpCancel why => void (ReservationMethods.cancel clk why)
  | OpMarkNoShow => ReservationMethods.mark_no_show clk
  end.

(** A sequence of calls, each at its own clock reading.  A call that
    raises is caught by the caller and the next call sees the object as
    the failed one left it. *)
Definition Reservation_exec_all (ops : list (Clock * ReservationOp))
    (r : Reservation) : Reservation :=
  fold_left (fun acc step => snd (run (Reservation_exec (fst step) (snd step)) acc))
    ops r.

(** ** Availability: the calls of a client *)

Inductive AvailabilityOp : Type :=
| OpReserve (count : Z)
| OpRelease (count : Z)
| OpBlock (count : Z) (reason : string)
| OpUnblock (count : Z).

Definition Availability_exec (clk : Clock) (op : AvailabilityOp)
  : Method Availability unit :=
  match op with
  | OpReserve n => AvailabilityMethods.reserve_rooms clk n
  | OpRelease n => AvailabilityMethods.release_rooms clk n
  | OpBlock n why => AvailabilityMethods.block_rooms clk n why
  | OpUnblock n => AvailabilityMethods.unblock_rooms clk n
  end.

(** ** WaitlistEntry (domain/entities/waitlist.py) *)

Record WaitlistEntry : Type := mkWaitlistEntry {
  waitlist_id : UUID;
  wl_guest_id : UUID;
  wl_room_type_id : string;
  requested_dates : DateRange;
  wl_guest_count : GuestCount;
  priority : Priority;
  wl_status : WaitlistStatus;
  wl_created_at : datetime;
  expires_at : datetime;
  notified_at : option datetime;
  converted_reservation_id : option UUID
}.

Definition set_priority (v : Priority) (e : WaitlistEntry) : WaitlistEntry :=
  mkWaitlistEntry (waitlist_id e) (wl_guest_id e) (wl_room_type_id e)
    (requested_dates e) (wl_guest_count e) v (wl_status e) (wl_created_at e)
    (expires_at e) (notified_at e) (converted_reservation_id e).

Definition set_wl_status (v : WaitlistStatus) (e : WaitlistEntry) : WaitlistEntry :=
  mkWaitlistEntry (waitlist_id e) (wl_guest_id e) (wl_room_type_id e)
    (requested_dates e) (wl_guest_count e) (priority e) v (wl_created_at e)
    (expires_at e) (notified_at e) (converted_reservation_id e).

Definition set_expires_at (v : datetime) (e : WaitlistEntry) : WaitlistEntry :=
  mkWaitlistEntry (waitlist_id e) (wl_guest_id e) (wl_room_type_id e)
    (requested_dates e) (wl_guest_count e) (priority e) (wl_status e)
    (wl_created_at e) v (notified_at e) (converted_reservation_id e).

Definition set_notified_at (v : option datetime) (e : WaitlistEntry)
  : WaitlistEntry :=
  mkWaitlistEntry (waitlist_id e) (wl_guest_id e) (wl_room_type_id e)
    (requested_dates e) (wl_guest_count e) (priority e) (wl_status e)
    (wl_created_at e) (expires_at e) v (converted_reservation_id e).

Definition set_converted_reservation_id (v : option UUID) (e : WaitlistEntry)
  : WaitlistEntry :=
  mkWaitlistEntry (waitlist_id e) (wl_guest_id e) (wl_room_type_id e)
    (requested_dates e) (wl_guest_count e) (priority e) (wl_status e)
    (wl_created_at e) (expires_at e) (notified_at e) v.

(** What a validator sees of the [values] dictionary: the fields that were
    validated before the one it is attached to, in the order the class
    declares them.  Only the two keys the validators look up are kept;
    [None] is an absent key. *)
Record Values : Type := mkValues {
  values_created_at : option datetime;
  values_converted_reservation_id : option (option UUID)
}.

Definition validate_expires_at (v : datetime) (values : Values) : outcome datetime :=
  match values_created_at values with
  | Some c =>
      if v <=? c then Raised (ValueError "expires_at must be after created_at")
      else Returned v
  | None => Returned v
  end.

Definition wl_validate_guest_count (v : GuestCount) : outcome GuestCount :=
  if adults v <? 1 then Raised (ValueError "At least 1 adult required")
  else Returned v.

Definition validate_status_for_conversion (v : WaitlistStatus) (values : Values)
  : outcome WaitlistStatus :=
  match values_converted_reservation_id values with
  | Some (Some _) =>
      if negb (WaitlistStatus_eqb v CONVERTED)
      then Raised (ValueError "Status must be CONVERTED when reservation is converted")
      else Returned v
  | _ => Returned v
  end.

(** [WaitlistEntry(...)] with every keyword given.  The class declares
    [guest_count], [priority], [status], [created_at], [expires_at],
    [notified_at], [converted_reservation_id] in this order: when [status]
    is validated neither [created_at] nor [converted_reservation_id] is in
    [values] yet, when [expires_at] is validated [created_at] is. *)
Definition WaitlistEntry_new (new_id guest : UUID) (room_type : string)
    (dates : DateRange) (gc : GuestCount) (prio : Priority)
    (st : WaitlistStatus) (created expires : datetime)
    (notified : option datetime) (converted : option UUID)
  : outcome WaitlistEntry :=
  match wl_validate_guest_count gc,
        validate_status_for_conversion st (mkValues None None),
        validate_expires_at expires (mkValues (Some created) None) with
  | Returned gc', Returned st', Returned expires' =>
      Returned (mkWaitlistEntry new_id guest room_type dates gc' prio st'
                  created expires' notified converted)
  | _, _, _ => Raised (ValidationError "validation error for WaitlistEntry")
  end.

(** [WaitlistEntry.add_to_waitlist] *)
Definition add_to_waitlist (clk : Clock) (new_id guest : UUID)
    (room_type : string) (dates : DateRange) (gc : GuestCount)
    (prio : Priority) : outcome WaitlistEntry :=
  let created := utcnow clk in
  let expires := created + timedelta_of_days 14 in
  WaitlistEntry_new new_id guest room_type dates gc prio ACTIVE created expires
    None None.

Module WaitlistMethods.

Definition convert_to_reservation (reservation : UUID)
  : Method WaitlistEntry unit :=
  st <- attr wl_status ;;
  raise_if (negb (WaitlistStatus_eqb st ACTIVE))
    (ValueError "Can only convert ACTIVE entries") ;;
  setattr set_wl_status CONVERTED ;;
  setattr set_converted_reservation_id (Some reservation).

Definition expire : Method WaitlistEntry unit :=
  st <- attr wl_status ;;
  if WaitlistStatus_eqb st ACTIVE then setattr set_wl_status EXPIRED
  else ret tt.

Definition extend_expiry (additional_days : Z) : Method WaitlistEntry unit :=
  st <- attr wl_status ;;
  if WaitlistStatus_eqb st ACTIVE then
    x <- attr expires_at ;;
    delta <- call (timedelta_new_days additional_days) ;;
    moved <- call (datetime_add x delta) ;;
    setattr set_expires_at moved
  else ret tt.

Definition upgrade_priority (new_priority : Priority)
  : Method WaitlistEntry unit :=
  p <- attr priority ;;
  if Priority_value p <? Priority_value new_priority
  then setattr set_priority new_priority
  else ret tt.

Definition mark_notified (clk : Clock) : Method WaitlistEntry unit :=
  setattr set_notified_at (Some (utcnow clk)).

End WaitlistMethods.

Definition should_notify_again (clk : Clock) (self : WaitlistEntry) : bool :=
  match notified_at self with
  | None => true
  | Some n => 3 <=? timedelta_days (utcnow clk - n)
  end.

Definition calculate_priority_score (clk : Clock) (self : WaitlistEntry) : Z :=
  let score := Priority_value (priority self) * 100 in
  let days_waiting := timedelta_days (utcnow clk - wl_created_at self) in
  let score := score + days_waiting * 2 in
  let days_to_expiry := timedelta_days (expires_at self - utcnow clk) in
  let score := score + (14 - days_to_expiry) * 5 in
  score.

Inductive WaitlistOp : Type :=
| OpConvert (reservation : UUID)
| OpExpire
| OpExtendExpiry (additional_days : Z)
| OpUpgradePriority (new_priority : Priority)
| OpMarkNotified.

Definition Waitlist_exec (clk : Clock) (op : WaitlistOp)
  : Method WaitlistEntry unit :=
  match op with
  | OpConvert i => WaitlistMethods.convert_to_reservation i
  | OpExpire => WaitlistMethods.expire
  | OpExtendExpiry d => WaitlistMethods.extend_expiry d
  | OpUpgradePriority p => WaitlistMethods.upgrade_priority p
  | OpMarkNotified => WaitlistMethods.mark_notified clk
  end.

(** The entries a client can obtain: the result of [add_to_waitlist], and
    whatever a call leaves of a reachable entry, returned or raised. *)
Inductive reachable_entry : WaitlistEntry -> Prop :=
| reachable_added clk new_id guest room_type dates gc prio e :
    add_to_waitlist clk new_id guest room_type dates gc prio = Returned e ->
    reachable_entry e
| reachable_step clk op e :
    reachable_entry e ->
    reachable_entry (snd (run (Waitlist_exec clk op) e)).

(** [converted_reservation_id] is set exactly when the entry is converted. *)
Definition conversion_invariant (e : WaitlistEntry) : Prop :=
  converted_reservation_id e <> None <-> wl_status e = CONVERTED.

(** ** The specification's wording, for comparison *)

(** A whole-day count obtained by dropping the fractional part of a
    duration, that is, by rounding toward zero. *)
Definition truncated_days (td : timedelta) : Z := Z.quot td us_per_day.

(** The priority score as the specification words it, on truncated day
    counts. *)
Definition spec_priority_score (now : datetime) (e : WaitlistEntry) : Z :=
  Priority_value (priority e) * 100
  + truncated_days (now - wl_created_at e) * 2
  + (14 - truncated_days (expires_at e - now)) * 5.



(** The value an optional argument of [modify] leaves in a field: the
    argument when it is given and true, the old value otherwise. *)
Definition replaced {A} (new_value : option A) (old : A) : A :=
  match new_value with Some v => v | None => old end.

Definition replaced_room_type (new_value : option string) (old : string)
  : string :=
  match new_value with
  | Some v => if truthy_str v then v else old
  | None => old
  end.

(** ** One call on one aggregate *)

Inductive Aggregate : Type :=
| AReservation (r : Reservation)
| AAvailability (a : Availability)
| AWaitlistEntry (e : WaitlistEntry).

Inductive Call : Type :=
| CallReservation (op : ReservationOp) (r : Reservation)
| CallAvailability (op : AvailabilityOp) (a : Availability)
| CallWaitlist (op : WaitlistOp) (e : WaitlistEntry).

(** The aggregate a call is made on. *)
Definition receiver (c : Call) : Aggregate :=
  match c with
  | CallReservation _ r => AReservation r
  | CallAvailability _ a => AAvailability a
  | CallWaitlist _ e => AWaitlistEntry e
  end.

(** How the call ends, and the aggregate as it leaves it. *)
Definition perform (clk : Clock) (c : Call) : outcome unit * Aggregate :=
  match c with
  | CallReservation op r =>
      let res := run (Reservation_exec clk op) r in (fst res, AReservation (snd res))
  | CallAvailability op a =>
      let res := run (Availability_exec clk op) a in (fst res, AAvailability (snd res))
  | CallWaitlist op e =>
      let res := run (Waitlist_exec clk op) e in (fst res, AWaitlistEntry (snd res))
  end.

(** The fields of a [Reservation] no method assigns. *)
Definition same_identity (r r' : Reservation) : Prop :=
  reservation_id r' = reservation_id r /\
  confirmation_code r' = confirmation_code r /\
  guest_id r' = guest_id r /\
  cancellation_policy r' = cancellation_policy r /\
  booking_source r' = booking_source r /\
  created_at r' = created_at r /\
  created_by r' = created_by r.

(** The booking details, which only [modify] assigns. *)
Definition same_booking (r r' : Reservation) : Prop :=
  room_type_id r' = room_type_id r /\
  date_range r' = date_range r /\
  guest_count r' = guest_count r /\
  total_amount r' = total_amount r.

(** ** Availability: the remaining members of the class *)

Definition is_fully_booked (self : Availability) : bool :=
  available_rooms self <=? 0.

Definition can_overbook (self : Availability) : bool :=
  let current_overbooking := Z.max 0 (- available_rooms self) in
  current_overbooking <? overbooking_threshold self.

(** The keys [validate_capacity] looks up in [values]; [None] is an absent
    key. *)
Record CapacityValues : Type := mkCapacityValues {
  cv_total_rooms : option Z;
  cv_overbooking_threshold : option Z;
  cv_reserved_rooms : option Z;
  cv_blocked_rooms : option Z
}.

(** [values.get(key, default)] *)
Definition values_get (entry : option Z) (default : Z) : Z :=
  match entry with Some v => v | None => default end.

Definition validate_capacity (v : Z) (values : CapacityValues) : outcome Z :=
  match cv_total_rooms values with
  | Some total =>
      let overbooking := values_get (cv_overbooking_threshold values) 0 in
      let max_allowed := total + overbooking in
      let reserved := values_get (cv_reserved_rooms values) 0 in
      let blocked := values_get (cv_blocked_rooms values) 0 in
      if max_allowed <? reserved + blocked
      then Raised (ValueError "reserved_rooms + blocked_rooms exceeds capacity")
      else Returned v
  | None => Returned v
  end.

(** A field declared [Field(ge=0)]: the value when it passes, nothing when
    it does not; a field that failed is not entered in [values]. *)
Definition field_ge0 (v : Z) : option Z := if 0 <=? v then Some v else None.

Definition validated (o : outcome Z) : option Z :=
  match o with Returned v => Some v | Raised _ => None end.

(** [Availability(...)] with every keyword given.  The counters are
    declared in the order [total_rooms], [reserved_rooms], [blocked_rooms],
    [overbooking_threshold]; [validate_capacity] is attached to
    [reserved_rooms] and to [blocked_rooms] and sees in [values] only the
    fields declared before the one it is validating. *)
Definition Availability_new (room : string) (day : date)
    (total reserved blocked overbooking : Z) (stamp : datetime) (ver : Z)
  : outcome Availability :=
  let total_ok := field_ge0 total in
  let reserved_ok :=
    match field_ge0 reserved with
    | Some v => validated (validate_capacity v
                  (mkCapacityValues total_ok None None None))
    | None => None
    end in
  let blocked_ok :=
    match field_ge0 blocked with
    | Some v => validated (validate_capacity v
                  (mkCapacityValues total_ok None reserved_ok None))
    | None => None
    end in
  let overbooking_ok := field_ge0 overbooking in
  match total_ok, reserved_ok, blocked_ok, overbooking_ok with
  | Some t, Some r, Some b, Some o =>
      Returned (mkAvailability room day t r b o stamp ver)
  | _, _, _, _ => Raised (ValidationError "validation error for Availability")
  end.

(** A sequence of calls on one ledger; a call that raises is caught and
    the next call sees the ledger as the failed one left it. *)
Definition Availability_exec_all (ops : list (Clock * AvailabilityOp))
    (a : Availability) : Availability :=
  fold_left (fun acc step => snd (run (Availability_exec (fst step) (snd step)) acc))
    ops a.

(** The count passed to a call is not negative. *)
Definition nonneg_count (op : AvailabilityOp) : bool :=
  match op with
  | OpReserve n | OpRelease n | OpUnblock n => 0 <=? n
  | OpBlock n _ => 0 <=? n
  end.

(** The calls that cannot push a ledger past its capacity: any
    [reserve_rooms], and [release_rooms] or [unblock_rooms] with a count
    that is not negative. *)
Definition capacity_safe (op : AvailabilityOp) : bool :=
  match op with
  | OpReserve _ => true
  | OpRelease n | OpUnblock n => 0 <=? n
  | OpBlock _ _ => false
  end.

(** The counters are in their declared ranges and no more rooms are
    blocked than exist. *)
Definition counters_in_range (a : Availability) : Prop :=
  0 <= reserved_rooms a /\ 0 <= blocked_rooms a <= total_rooms a.

(** ** Reservation: statuses with no way out *)

Definition is_terminal (st : ReservationStatus) : bool :=
  match st with
  | CHECKED_OUT | CANCELLED | NO_SHOW => true
  | _ => false
  end.

(** An optional replacement value passes the validator of its field. *)
Definition passes {A} (validator : A -> outcome A) (new_value : option A) : Prop :=
  match new_value with
  | Some v => validator v = Returned v
  | None => True
  end.

(** ** WaitlistEntry: sequences of calls *)

Definition Waitlist_exec_all (ops : list (Clock * WaitlistOp))
    (e : WaitlistEntry) : WaitlistEntry :=
  fold_left (fun acc step => snd (run (Waitlist_exec (fst step) (snd step)) acc))
    ops e.

(** ** In-memory repositories
       (infrastructure/repositories/in_memory_repositories.py)

    A repository keeps a [dict] from the key of an aggregate to the
    aggregate.  Every write, [save] or [update], files the aggregate under
    the key read from its own fields, and no method of an aggregate
    assigns those fields, so the dictionary is represented by its values
    in insertion order, each filed under the key its fields give; keys are
    unique in a dictionary, which the properties that need it assume of
    the list.  The coroutines run to completion one after the other. *)

Section Storage.
Context {K V : Type}.
Variable key_eqb : K -> K -> bool.
Variable key_of : V -> K.

(** [self._storage.get(k)] *)
Fixpoint storage_get (k : K) (s : list V) : option V :=
  match s with
  | [] => None
  | v :: rest => if key_eqb (key_of v) k then Some v else storage_get k rest
  end.

(** [k in self._storage] *)
Definition storage_mem (k : K) (s : list V) : bool :=
  match storage_get k s with Some _ => true | None => false end.

(** [self._storage[key_of v] = v]: a key already present keeps its place. *)
Fixpoint storage_set (v : V) (s : list V) : list V :=
  match s with
  | [] => [v]
  | v' :: rest =>
      if key_eqb (key_of v') (key_of v) then v :: rest
      else v' :: storage_set v rest
  end.

(** [del self._storage[k]] *)
Fixpoint storage_del (k : K) (s : list V) : list V :=
  match s with
  | [] => []
  | v :: rest => if key_eqb (key_of v) k then rest else v :: storage_del k rest
  end.

(** The keys are pairwise different. *)
Definition unique_keys (s : list V) : Prop := NoDup (map key_of s).

End Storage.

(** A method that replaces the state it runs on. *)
Definition mutate {S} (f : S -> S) : Method S unit :=
  fun s => (Returned tt, f s).

Definition ReservationStorage : Type := list Reservation.

Module InMemoryReservationRepository.

Definition save (reservation : Reservation)
  : Method ReservationStorage Reservation :=
  mutate (storage_set N.eqb reservation_id reservation) ;;
  ret reservation.

Definition find_by_id (id : UUID)
  : Method ReservationStorage (option Reservation) :=
  attr (storage_get N.eqb reservation_id id).

Definition find_by_confirmation_code (code : string)
  : Method ReservationStorage (option Reservation) :=
  attr (find (fun reservation => String.eqb (confirmation_code reservation) code)).

Definition find_all : Method ReservationStorage (list Reservation) :=
  attr (fun storage => storage).

Definition find_by_guest_id (guest : UUID)
  : Method ReservationStorage (list Reservation) :=
  attr (filter (fun r => N.eqb (guest_id r) guest)).

Definition update (reservation : Reservation)
  : Method ReservationStorage Reservation :=
  present <- attr (storage_mem N.eqb reservation_id (reservation_id reservation)) ;;
  if present then
    mutate (storage_set N.eqb reservation_id reservation) ;;
    ret reservation
  else raise (ValueError "Reservation not found").

Definition delete (id : UUID) : Method ReservationStorage bool :=
  present <- attr (storage_mem N.eqb reservation_id id) ;;
  if present then
    mutate (storage_del N.eqb reservation_id id) ;;
    ret true
  else ret false.

End InMemoryReservationRepository.

(** The key of a ledger: [(room_type_id, availability_date)]. *)
Definition AvKey : Type := (string * date)%type.

Definition AvKey_eqb (a b : AvKey) : bool :=
  String.eqb (fst a) (fst b) && (snd a =? snd b).

Definition AvKey_of (a : Availability) : AvKey :=
  (av_room_type_id a, availability_date a).

Definition AvailabilityStorage : Type := list Availability.

(** [room_id == room_type_id and start_date <= av_date <= end_date] *)
Definition in_range (room : string) (start_date end_date : date)
    (a : Availability) : bool :=
  String.eqb (av_room_type_id a) room
  && (start_date <=? availability_date a)
  && (availability_date a <=? end_date).

Module InMemoryAvailabilityRepository.

Definition save (availability : Availability)
  : Method AvailabilityStorage Availability :=
  mutate (storage_set AvKey_eqb AvKey_of availability) ;;
  ret availability.

Definition find_by_room_and_date (room : string) (day : date)
  : Method AvailabilityStorage (option Availability) :=
  attr (storage_get AvKey_eqb AvKey_of (room, day)).

(** The ledgers found are the objects the dictionary holds, not copies:
    the result lists the keys they are filed under, which stand for the
    references. *)
Definition find_by_room_type (room : string) (start_date end_date : date)
  : Method AvailabilityStorage (list AvKey) :=
  attr (fun storage => map AvKey_of (filter (in_range room start_date end_date) storage)).

Definition update (availability : Availability)
  : Method AvailabilityStorage Availability :=
  present <- attr (storage_mem AvKey_eqb AvKey_of (AvKey_of availability)) ;;
  if present then
    mutate (storage_set AvKey_eqb AvKey_of availability) ;;
    ret availability
  else raise (ValueError "Availability not found").

Definition delete (room : string) (day : date)
  : Method AvailabilityStorage bool :=
  present <- attr (storage_mem AvKey_eqb AvKey_of (room, day)) ;;
  if present then
    mutate (storage_del AvKey_eqb AvKey_of (room, day)) ;;
    ret true
  else ret false.

End InMemoryAvailabilityRepository.

(** ** AvailabilityService (application/services.py) *)

(** A method called on a ledger that was found in the repository: the
    ledger is the stored object, so what the method assigns, up to the
    point where it returns or raises, is assigned in the dictionary.  A
    reference always has its object; the last case is never taken. *)
Definition on_stored (ref : AvKey) (m : Method Availability unit)
  : Method AvailabilityStorage Availability :=
  fun storage =>
    match storage_get AvKey_eqb AvKey_of ref storage with
    | Some av =>
        let res := run m av in
        (match fst res with
         | Returned _ => Returned (snd res)
         | Raised e => Raised e
         end,
         storage_set AvKey_eqb AvKey_of (snd res) storage)
    | None => (Raised (ValueError "Availability not found"), storage)
    end.

(** [for av in availabilities: av.m(...); await self.availability_repo.update(av)] *)
Fixpoint for_each_availability (found : list AvKey)
    (m : Method Availability unit) : Method AvailabilityStorage unit :=
  match found with
  | [] => ret tt
  | ref :: rest =>
      av <- on_stored ref m ;;
      InMemoryAvailabilityRepository.update av ;;
      for_each_availability rest m
  end.

Module AvailabilityService.

Definition create_availability (clk : Clock) (room : string) (day : date)
    (total_rooms overbooking_threshold : Z)
  : Method AvailabilityStorage Availability :=
  availability <- call (Availability_new room day total_rooms 0 0
                          overbooking_threshold (utcnow clk) 1) ;;
  InMemoryAvailabilityRepository.save availability.

Definition check_availability (room : string) (start_date end_date : date)
    (required_count : Z) : Method AvailabilityStorage bool :=
  availabilities <- attr (filter (in_range room start_date end_date)) ;;
  match availabilities with
  | [] => ret false
  | _ => ret (forallb (fun av => check_availability av required_count)
                availabilities)
  end.

Definition reserve_rooms (clk : Clock) (room : string)
    (start_date end_date : date) (count : Z) : Method AvailabilityStorage bool :=
  availabilities <-
    InMemoryAvailabilityRepository.find_by_room_type room start_date end_date ;;
  match availabilities with
  | [] => ret false
  | _ =>
      for_each_availability availabilities
        (AvailabilityMethods.reserve_rooms clk count) ;;
      ret true
  end.

Definition release_rooms (clk : Clock) (room : string)
    (start_date end_date : date) (count : Z) : Method AvailabilityStorage bool :=
  availabilities <-
    InMemoryAvailabilityRepository.find_by_room_type room start_date end_date ;;
  match availabilities with
  | [] => ret false
  | _ =>
      for_each_availability availabilities
        (AvailabilityMethods.release_rooms clk count) ;;
      ret true
  end.

Definition block_rooms (clk : Clock) (room : string)
    (start_date end_date : date) (count : Z) (reason : string)
  : Method AvailabilityStorage bool :=
  availabilities <-
    InMemoryAvailabilityRepository.find_by_room_type room start_date end_date ;;
  match availabilities with
  | [] => ret false
  | _ =>
      for_each_availability availabilities
        (AvailabilityMethods.block_rooms clk count reason) ;;
      ret true
  end.

Definition unblock_rooms (clk : Clock) (room : string)
    (start_date end_date : date) (count : Z) : Method AvailabilityStorage bool :=
  availabilities <-
    InMemoryAvailabilityRepository.find_by_room_type room start_date end_date ;;
  match availabilities with
  | [] => ret false
  | _ =>
      for_each_availability availabilities
        (AvailabilityMethods.unblock_rooms clk count) ;;
      ret true
  end.

(** The service call that corresponds to a call on one ledger. *)
Definition apply (clk : Clock) (room : string) (start_date end_date : date)
    (op : AvailabilityOp) : Method AvailabilityStorage bool :=
  match op with
  | OpReserve n => reserve_rooms clk room start_date end_date n
  | OpRelease n => release_rooms clk room start_date end_date n
  | OpBlock n why => block_rooms clk room start_date end_date n why
  | OpUnblock n => unblock_rooms clk room start_date end_date n
  end.

End AvailabilityService.

(** What a sweep over the dictionary in insertion order does when it
    calls a method on each selected ledger and stops at the first call
    that raises; used to state what the loops of the service compute. *)
Fixpoint sweep (m : Method Availability unit) (selected : Availability -> bool)
    (storage : list Availability) : outcome unit * list Availability :=
  match storage with
  | [] => (Returned tt, [])
  | av :: rest =>
      if selected av then
        match run m av with
        | (Returned _, av') =>
            let res := sweep m selected rest in (fst res, av' :: snd res)
        | (Raised e, av') => (Raised e, av' :: rest)
        end
      else
        let res := sweep m selected rest in (fst res, av :: snd res)
  end.

(** * Properties *)

(** ** Running a method *)

(** The model can tell a method that raises after an assignment from one
    that raises before: the assignment stays. *)
Example late_raise_is_observable :
  run (setattr set_reserved_rooms 7 ;; raise (A:=unit) (ValueError "late"))
      (mkAvailability "R" 0 10 0 0 0 0 1)
  = (Raised (ValueError "late"), mkAvailability "R" 0 10 7 0 0 0 1).
Proof. reflexivity. Qed.

Ltac unfold_method :=
  unfold run, bind, attr, setattr, raise_if, raise, ret, call, void.

(** ** Availability *)

Section AvailabilityFacts.
Import AvailabilityMethods.
Variable clk : Clock.

Lemma check_availability_spec (a : Availability) (count : Z) :
  check_availability a count = true <->
  count <= available_rooms a + overbooking_threshold a \/
  count <= available_rooms a.
Proof.
  unfold check_availability.
  rewrite orb_true_iff, !Z.leb_le. tauto.
Qed.

Lemma reserve_rooms_run (a : Availability) (count : Z) :
  run (reserve_rooms clk count) a =
  if check_availability a count
  then (Returned tt,
        mkAvailability (av_room_type_id a) (availability_date a)
          (total_rooms a) (reserved_rooms a + count) (blocked_rooms a)
          (overbooking_threshold a) (utcnow clk) (av_version a + 1))
  else (Raised (ValueError "Insufficient availability"), a).
Proof.
  unfold reserve_rooms; unfold_method.
  destruct (check_availability a count); reflexivity.
Qed.

Lemma release_rooms_run (a : Availability) (count : Z) :
  run (release_rooms clk count) a =
  if reserved_rooms a <? count
  then (Raised (ValueError "Cannot release more than reserved"), a)
  else (Returned tt,
        mkAvailability (av_room_type_id a) (availability_date a)
          (total_rooms a) (reserved_rooms a - count) (blocked_rooms a)
          (overbooking_threshold a) (utcnow clk) (av_version a + 1)).
Proof.
  unfold release_rooms; unfold_method.
  destruct (reserved_rooms a <? count); reflexivity.
Qed.

Lemma block_rooms_run (a : Availability) (count : Z) (reason : string) :
  run (block_rooms clk count reason) a =
  if total_rooms a <? blocked_rooms a + count
  then (Raised (ValueError "Cannot block more rooms than total available"), a)
  else (Returned tt,
        mkAvailability (av_room_type_id a) (availability_date a)
          (total_rooms a) (reserved_rooms a) (blocked_rooms a + count)
          (overbooking_threshold a) (utcnow clk) (av_version a + 1)).
Proof.
  unfold block_rooms; unfold_method.
  destruct (total_rooms a <? blocked_rooms a + count); reflexivity.
Qed.

Lemma unblock_rooms_run (a : Availability) (count : Z) :
  run (unblock_rooms clk count) a =
  if blocked_rooms a <? count
  then (Raised (ValueError "Cannot unblock more than blocked"), a)
  else (Returned tt,
        mkAvailability (av_room_type_id a) (availability_date a)
          (total_rooms a) (reserved_rooms a) (blocked_rooms a - count)
          (overbooking_threshold a) (utcnow clk) (av_version a + 1)).
Proof.
  unfold unblock_rooms; unfold_method.
  destruct (blocked_rooms a <? count); reflexivity.
Qed.

(** [reserve_rooms] keeps the capacity rule, for any count; the
    allowance is declared [Field(ge=0)] and no method assigns it. *)
Lemma reserve_rooms_keeps_capacity (a a' : Availability) (count : Z) :
  0 <= overbooking_threshold a ->
  capacity_invariant a ->
  run (reserve_rooms clk count) a = (Returned tt, a') ->
  capacity_invariant a'.
Proof.
  intros Hob Hinv Hrun. rewrite reserve_rooms_run in Hrun.
  destruct (check_availability a count) eqn:Hc; [|discriminate].
  injection Hrun as <-.
  apply check_availability_spec in Hc.
  unfold capacity_invariant, available_rooms in *; simpl. lia.
Qed.

(** [release_rooms] and [unblock_rooms] keep it when the count is not
    negative. *)
Lemma release_rooms_keeps_capacity (a a' : Availability) (count : Z) :
  0 <= count ->
  capacity_invariant a ->
  run (release_rooms clk count) a = (Returned tt, a') ->
  capacity_invariant a'.
Proof.
  intros Hpos Hinv Hrun. rewrite release_rooms_run in Hrun.
  destruct (reserved_rooms a <? count); [discriminate|].
  injection Hrun as <-.
  unfold capacity_invariant in *; simpl. lia.
Qed.

Lemma unblock_rooms_keeps_capacity (a a' : Availability) (count : Z) :
  0 <= count ->
  capacity_invariant a ->
  run (unblock_rooms clk count) a = (Returned tt, a') ->
  capacity_invariant a'.
Proof.
  intros Hpos Hinv Hrun. rewrite unblock_rooms_run in Hrun.
  destruct (blocked_rooms a <? count); [discriminate|].
  injection Hrun as <-.
  unfold capacity_invariant in *; simpl. lia.
Qed.

End AvailabilityFacts.

(** C1.  The capacity rule [reserved_rooms + blocked_rooms <= total_rooms +
    overbooking_threshold] is not kept by every successful call: on a
    fully reserved day of ten rooms with no overbooking allowance, which
    satisfies the rule, [block_rooms(5, ...)] compares [blocked_rooms + 5]
    with [total_rooms] only, succeeds, and leaves fifteen rooms committed
    out of ten. *)
Theorem block_rooms_breaks_capacity_invariant :
  let clk := mkClock 1000 0 in
  let a := mkAvailability "DELUXE_001" 0 10 10 0 0 0 2 in
  let a' := mkAvailability "DELUXE_001" 0 10 10 5 0 1000 3 in
  capacity_invariant a /\
  run (AvailabilityMethods.block_rooms clk 5 "maintenance") a = (Returned tt, a') /\
  ~ capacity_invariant a'.
Proof.
  cbv zeta. split; [|split].
  - unfold capacity_invariant; simpl; lia.
  - reflexivity.
  - unfold capacity_invariant; simpl; lia.
Qed.

(** The state above is produced by the public calls from a fresh ledger. *)
Lemma fully_reserved_then_blocked_is_reachable :
  let clk := mkClock 1000 0 in
  let fresh := mkAvailability "DELUXE_001" 0 10 0 0 0 0 1 in
  exists a1,
    run (AvailabilityMethods.reserve_rooms clk 10) fresh = (Returned tt, a1) /\
    run (AvailabilityMethods.block_rooms clk 5 "maintenance") a1
    = (Returned tt, mkAvailability "DELUXE_001" 0 10 10 5 0 1000 3).
Proof. cbv zeta. eexists. split; reflexivity. Qed.

(** A negative count passes the guard of [release_rooms] and raises
    [reserved_rooms], again past the capacity rule. *)
Lemma release_rooms_negative_count_breaks_capacity :
  let clk := mkClock 1000 0 in
  let a := mkAvailability "DELUXE_001" 0 10 10 0 0 0 2 in
  exists a',
    run (AvailabilityMethods.release_rooms clk (-5)) a = (Returned tt, a') /\
    reserved_rooms a' = 15 /\ ~ capacity_invariant a'.
Proof.
  cbv zeta. eexists. split; [reflexivity|]. split; [reflexivity|].
  unfold capacity_invariant; simpl; lia.
Qed.

(** C3.  [check_availability(count)] is true exactly when
    [available_rooms >= count] or [available_rooms + overbooking_threshold
    >= count]; [reserve_rooms(count)] raises, leaving the ledger as it
    was, exactly when that test is false, and otherwise adds [count] to
    [reserved_rooms], adds one to [version] and refreshes [last_updated].
    With ten rooms and an allowance of two, reserving eleven succeeds and
    leaves [available_rooms = -1]; reserving two more then fails. *)
Theorem reserve_rooms_admission :
  (forall a count,
      check_availability a count = true <->
      (available_rooms a >= count \/
       available_rooms a + overbooking_threshold a >= count)) /\
  (forall clk a count,
      check_availability a count = false ->
      run (AvailabilityMethods.reserve_rooms clk count) a
      = (Raised (ValueError "Insufficient availability"), a)) /\
  (forall clk a count,
      check_availability a count = true ->
      run (AvailabilityMethods.reserve_rooms clk count) a
      = (Returned tt,
         mkAvailability (av_room_type_id a) (availability_date a)
           (total_rooms a) (reserved_rooms a + count) (blocked_rooms a)
           (overbooking_threshold a) (utcnow clk) (av_version a + 1))) /\
  (forall clk1 clk2 room day stamp,
      let a0 := mkAvailability room day 10 0 0 2 stamp 1 in
      exists a1,
        run (AvailabilityMethods.reserve_rooms clk1 11) a0 = (Returned tt, a1) /\
        available_rooms a1 = -1 /\
        run (AvailabilityMethods.reserve_rooms clk2 2) a1
        = (Raised (ValueError "Insufficient availability"), a1)).
Proof.
  repeat split.
  - intros H. apply check_availability_spec in H. lia.
  - intros H. apply check_availability_spec. lia.
  - intros clk a count H. rewrite reserve_rooms_run, H. reflexivity.
  - intros clk a count H. rewrite reserve_rooms_run, H. reflexivity.
  - intros clk1 clk2 room day stamp a0. eexists. split; [reflexivity|].
    split; reflexivity.
Qed.

(** C10, as stated, fails: not every ledger admits a count that is zero
    or negative.  Ten rooms, ten reserved, five blocked and no allowance
    (the ledger [fully_reserved_then_blocked_is_reachable] builds) has
    [available_rooms = -5], and [check_availability(0)] is false. *)
Lemma nonpositive_count_not_always_admitted :
  ~ (forall a count, count <= 0 -> check_availability a count = true).
Proof.
  intros H.
  pose proof (H (mkAvailability "DELUXE_001" 0 10 10 5 0 1000 3) 0
                (Z.le_refl 0)) as H0.
  vm_compute in H0. discriminate H0.
Qed.

(** C10, amended.  On a ledger that satisfies the capacity rule, every
    count that is zero or negative passes [check_availability], and
    [reserve_rooms] succeeds: it adds the count to [reserved_rooms], so a
    negative count lowers it, and adds one to [version].  No guard looks
    at the sign of the count. *)
Theorem reserve_rooms_nonpositive_count
    (clk : Clock) (a : Availability) (count : Z) :
  capacity_invariant a ->
  count <= 0 ->
  check_availability a count = true /\
  run (AvailabilityMethods.reserve_rooms clk count) a
  = (Returned tt,
     mkAvailability (av_room_type_id a) (availability_date a)
       (total_rooms a) (reserved_rooms a + count) (blocked_rooms a)
       (overbooking_threshold a) (utcnow clk) (av_version a + 1)) /\
  (count < 0 ->
   reserved_rooms (snd (run (AvailabilityMethods.reserve_rooms clk count) a))
   < reserved_rooms a).
Proof.
  intros Hinv Hcount.
  assert (Hc : check_availability a count = true).
  { apply check_availability_spec.
    unfold capacity_invariant, available_rooms in *. lia. }
  rewrite reserve_rooms_run, Hc.
  repeat split. simpl. lia.
Qed.

(** On an empty ledger a count of [-5] leaves [reserved_rooms = -5]. *)
Lemma reserve_rooms_nonpositive_count_witness :
  let clk := mkClock 1000 0 in
  let a := mkAvailability "DELUXE_001" 0 10 0 0 2 0 1 in
  capacity_invariant a /\ -5 <= 0 /\
  check_availability a (-5) = true /\
  run (AvailabilityMethods.reserve_rooms clk (-5)) a
  = (Returned tt, mkAvailability "DELUXE_001" 0 10 (-5) 0 2 1000 2) /\
  (-5 < 0 ->
   reserved_rooms (snd (run (AvailabilityMethods.reserve_rooms clk (-5)) a)) < 0).
Proof.
  cbv zeta.
  assert (Hinv : capacity_invariant (mkAvailability "DELUXE_001" 0 10 0 0 2 0 1)).
  { unfold capacity_invariant; simpl; lia. }
  assert (Hcount : -5 <= 0) by lia.
  split; [exact Hinv|]. split; [exact Hcount|].
  exact (reserve_rooms_nonpositive_count (mkClock 1000 0)
           (mkAvailability "DELUXE_001" 0 10 0 0 2 0 1) (-5) Hinv Hcount).
Defined.

(** ** Decimal rounding *)



Lemma round_half_even_nonneg (n d : Z) :
  0 <= n -> 0 <= d -> 0 <= round_half_even n d.
Proof.
  intros Hn Hd. unfold round_half_even.
  assert (0 <= n / d) by (apply Z_div_nonneg_nonneg; assumption).
  destruct (2 * (n mod d) <? d); [assumption|].
  destruct (d <? 2 * (n mod d)); [lia|].
  destruct (Z.even (n / d)); lia.
Qed.





Section Shifts.
Variables lo hi : Z.
Hypothesis lo_pos : 0 < lo.
Hypothesis hi_lo : hi = 10 * lo.



End Shifts.



Lemma Qnum_Qred_sign (x : Q) : (0 <= x)%Q -> 0 <= Qnum (Qred x).
Proof.
  intros H. assert (Hr : (0 <= Qred x)%Q) by (rewrite Qred_correct; exact H).
  unfold Qle in Hr. simpl in Hr. lia.
Qed.

Lemma decimal_round_nonneg (x : Q) : (0 <= x)%Q -> (0 <= decimal_round x)%Q.
Proof.
  intros H. unfold decimal_round.
  destruct (Qnum (Qred x) =? 0); [apply Qle_refl|].
  pose proof (Qnum_Qred_sign x H) as Hs.
  unfold decimal_round_pos. cbn [fst snd].
  unfold Qle. cbn [Qnum Qden]. rewrite Z.mul_0_l, Z.mul_1_r.
  apply Z.mul_nonneg_nonneg; [lia|].
  apply Z.mul_nonneg_nonneg.
  - apply round_half_even_nonneg.
    + apply Z.mul_nonneg_nonneg; [lia | apply Z.pow_nonneg; lia].
    + apply Z.mul_nonneg_nonneg; [lia | apply Z.pow_nonneg; lia].
  - apply Z.pow_nonneg; lia.
Qed.



(** A total of 29 digits shows the rounding: the exact 80 percent share
    of 9999999999999999999999999999.9 is 7999999999999999999999999999.92
    and the product is rounded to 8000000000000000000000000000; the 100
    percent share is rounded to 10^28, above the total. *)
Example refund_is_rounded_to_28_digits :
  let total := mkMoney (99999999999999999999999999999 # 10) "IDR" in
  calculate_refund (mkCancellationPolicy "Standard" 80 24) total 19999 20000
  = Returned (mkMoney (8000000000000000000000000000 # 1) "IDR") /\
  calculate_refund (mkCancellationPolicy "Full" 100 24) total 19999 20000
  = Returned (mkMoney (10000000000000000000000000000 # 1) "IDR") /\
  ~ (10000000000000000000000000000 # 1 <= amount total)%Q.
Proof.
  cbv zeta. split; [vm_compute; reflexivity|].
  split; [vm_compute; reflexivity|].
  vm_compute. intros H. apply H. reflexivity.
Qed.

(** ** CancellationPolicy *)

Lemma datetime_date_of_date (d : date) : datetime_date (datetime_of_date d) = d.
Proof.
  unfold datetime_date, datetime_of_date.
  apply Z.div_mul. unfold us_per_day, us_per_hour. lia.
Qed.


Lemma Money_new_nonneg (a : Q) (c : string) :
  (0 <= a)%Q -> Money_new a c = Returned (mkMoney a c).
Proof.
  intros H. unfold Money_new.
  apply Qle_bool_iff in H. rewrite H. reflexivity.
Qed.

Lemma calculate_refund_run (p : CancellationPolicy) (total : Money)
    (cancelled check_in : date) :
  CancellationPolicy_valid p ->
  Money_valid total ->
  calculate_refund p total cancelled check_in =
  Returned (mkMoney
              (if deadline_hours p <=? (check_in - cancelled) * 24
               then decimal_round
                      (amount total * decimal_round (refund_percentage p / 100))
               else 0)%Q
              (currency total)).
Proof.
  intros (Hlo & _ & _) Htotal. unfold calculate_refund.
  apply Money_new_nonneg.
  destruct (deadline_hours p <=? (check_in - cancelled) * 24).
  - unfold Money_valid in Htotal.
    apply decimal_round_nonneg.
    apply Qmult_le_0_compat; [exact Htotal|].
    apply decimal_round_nonneg.
    apply Qle_shift_div_l; [reflexivity|].
    rewrite Qmult_0_l. exact Hlo.
  - apply Qle_refl.
Qed.






(** ** Reservation *)

Section ReservationFacts.
Import ReservationMethods.
Variable clk : Clock.

Lemma confirm_run (r : Reservation) (payment_confirmed : bool) :
  run (confirm clk payment_confirmed) r =
  if negb (ReservationStatus_eqb (status r) PENDING)
  then (Raised (ValueError "Can only confirm PENDING reservations"), r)
  else if negb payment_confirmed
  then (Raised (ValueError "Payment must be confirmed"), r)
  else (Returned tt,
        set_version (version r + 1)
          (set_modified_at (utcnow clk) (set_status CONFIRMED r))).
Proof.
  unfold confirm; unfold_method.
  destruct (ReservationStatus_eqb (status r) PENDING); simpl; [|reflexivity].
  destruct payment_confirmed; reflexivity.
Qed.

Lemma check_in_run (r : Reservation) (room_number : string) :
  run (check_in clk room_number) r =
  if negb (ReservationStatus_eqb (status r) CONFIRMED)
  then (Raised (ValueError "Can only check in CONFIRMED reservations"), r)
  else if datetime_date (utcnow clk) <? check_in_date (date_range r)
  then (Raised (ValueError "Cannot check in before check-in date"), r)
  else (Returned tt,
        set_version (version r + 1)
          (set_modified_at (utcnow clk) (set_status CHECKED_IN r))).
Proof.
  unfold check_in; unfold_method.
  destruct (ReservationStatus_eqb (status r) CONFIRMED); simpl; [|reflexivity].
  destruct (datetime_date (utcnow clk) <? check_in_date (date_range r));
    reflexivity.
Qed.

Lemma check_out_run (r : Reservation) :
  run (check_out clk) r =
  if negb (ReservationStatus_eqb (status r) CHECKED_IN)
  then (Raised (ValueError "Can only check out CHECKED_IN reservations"), r)
  else (Returned (total_amount r),
        set_version (version r + 1)
          (set_modified_at (utcnow clk) (set_status CHECKED_OUT r))).
Proof.
  unfold check_out; unfold_method.
  destruct (ReservationStatus_eqb (status r) CHECKED_IN); reflexivity.
Qed.

Lemma cancel_run (r : Reservation) (reason : string) :
  run (cancel clk reason) r =
  if negb (is_cancellable r)
  then (Raised (ValueError "Reservation cannot be cancelled in current state"), r)
  else match Reservation_calculate_refund r (today clk) with
       | Raised e => (Raised e, r)
       | Returned refund =>
           (Returned refund,
            set_version (version r + 1)
              (set_modified_at (utcnow clk) (set_status CANCELLED r)))
       end.
Proof.
  unfold cancel; unfold_method.
  destruct (is_cancellable r); simpl; [|reflexivity].
  destruct (Reservation_calculate_refund r (today clk)); reflexivity.
Qed.

Lemma mark_no_show_run (r : Reservation) :
  run (mark_no_show clk) r =
  if negb (ReservationStatus_eqb (status r) CONFIRMED
           || ReservationStatus_eqb (status r) PENDING)
  then (Raised (ValueError
          "Can only mark as no-show for PENDING or CONFIRMED reservations"), r)
  else (Returned tt,
        set_version (version r + 1)
          (set_modified_at (utcnow clk) (set_status NO_SHOW r))).
Proof.
  unfold mark_no_show; unfold_method.
  destruct (ReservationStatus_eqb (status r) CONFIRMED
            || ReservationStatus_eqb (status r) PENDING); reflexivity.
Qed.

Lemma add_special_request_run (r : Reservation) (new_id : UUID)
    (ty : RequestType) (desc : string) :
  run (add_special_request clk new_id ty desc) r =
  (Returned tt,
   set_modified_at (utcnow clk)
     (set_special_requests
        (special_requests r
         ++ [mkSpecialRequest new_id ty desc false None (utcnow clk)])%list r)).
Proof. reflexivity. Qed.

Lemma modify_run (r : Reservation) (dr : option DateRange)
    (gc : option GuestCount) (rt : option string) (ta : option Money) :
  run (modify clk dr gc rt ta) r =
  if negb (is_modifiable clk r)
  then (Raised (ValueError "Reservation cannot be modified in current state"), r)
  else (Returned tt,
        mkReservation (reservation_id r) (confirmation_code r) (guest_id r)
          (replaced_room_type rt (room_type_id r))
          (replaced dr (date_range r)) (replaced gc (guest_count r))
          (replaced ta (total_amount r)) (cancellation_policy r) (status r)
          (booking_source r) (special_requests r) (created_at r)
          (utcnow clk) (created_by r) (version r + 1)).
Proof.
  unfold modify; unfold_method.
  destruct (is_modifiable clk r) eqn:Hm; simpl; [|reflexivity].
  destruct dr, gc, rt as [s|], ta; simpl;
    try (destruct (truthy_str s)); reflexivity.
Qed.

End ReservationFacts.

Lemma void_run {S A} (m : Method S A) (s : S) :
  run (void m) s =
  match run m s with
  | (Returned _, s') => (Returned tt, s')
  | (Raised e, s') => (Raised e, s')
  end.
Proof. unfold void, run, bind, ret. destruct (m s) as [[a|e] s']; reflexivity. Qed.

Ltac reservation_run :=
  rewrite ?void_run;
  rewrite ?confirm_run, ?check_in_run, ?check_out_run, ?cancel_run,
    ?mark_no_show_run, ?add_special_request_run, ?modify_run.

Ltac availability_run :=
  rewrite ?reserve_rooms_run, ?release_rooms_run, ?block_rooms_run,
    ?unblock_rooms_run.

Ltac split_ifs :=
  repeat match goal with
         | |- context [if ?c then _ else _] => destruct c eqn:?
         | |- context [match ?o with Returned _ => _ | Raised _ => _ end] =>
             destruct o eqn:?
         end.

(** A call on a [Reservation] that raises leaves it as it was. *)
Lemma Reservation_exec_raise_unchanged (clk : Clock) (op : ReservationOp)
    (r r' : Reservation) (e : exn) :
  run (Reservation_exec clk op) r = (Raised e, r') -> r' = r.
Proof.
  destruct op; simpl; reservation_run; split_ifs; simpl;
    intros H; inversion H; reflexivity.
Qed.

Lemma Availability_exec_raise_unchanged (clk : Clock) (op : AvailabilityOp)
    (a a' : Availability) (e : exn) :
  run (Availability_exec clk op) a = (Raised e, a') -> a' = a.
Proof.
  destruct op; simpl; availability_run; split_ifs;
    intros H; inversion H; reflexivity.
Qed.

Lemma Waitlist_exec_raise_unchanged (clk : Clock) (op : WaitlistOp)
    (w w' : WaitlistEntry) (e : exn) :
  run (Waitlist_exec clk op) w = (Raised e, w') -> w' = w.
Proof.
  destruct op; simpl;
    unfold WaitlistMethods.convert_to_reservation, WaitlistMethods.expire,
      WaitlistMethods.extend_expiry, WaitlistMethods.upgrade_priority,
      WaitlistMethods.mark_notified;
    unfold_method; split_ifs; simpl; intros H; inversion H; reflexivity.
Qed.

(** C5.  A call that raises leaves every field of the aggregate it was
    made on as it was: each method of [Reservation], [Availability] and
    [WaitlistEntry] raises before its first assignment or not at all. *)
Theorem failed_call_leaves_aggregate_unchanged
    (clk : Clock) (c : Call) (e : exn) (after : Aggregate) :
  perform clk c = (Raised e, after) -> after = receiver c.
Proof.
  destruct c as [op r | op a | op w]; simpl; intros H.
  - destruct (run (Reservation_exec clk op) r) as [o r'] eqn:Hrun.
    simpl in H. inversion H; subst.
    f_equal. eapply Reservation_exec_raise_unchanged; eassumption.
  - destruct (run (Availability_exec clk op) a) as [o a'] eqn:Hrun.
    simpl in H. inversion H; subst.
    f_equal. eapply Availability_exec_raise_unchanged; eassumption.
  - destruct (run (Waitlist_exec clk op) w) as [o w'] eqn:Hrun.
    simpl in H. inversion H; subst.
    f_equal. eapply Waitlist_exec_raise_unchanged; eassumption.
Qed.

(** Checking in a pending reservation raises and changes nothing. *)
Lemma failed_call_leaves_aggregate_unchanged_witness :
  let clk := mkClock (datetime_of_date 110) 110 in
  let r := mkReservation 1%N "ABCD1234" 7%N "DELUXE" (mkDateRange 110 112)
             (mkGuestCount 2 0) (mkMoney 2000000 "IDR")
             (mkCancellationPolicy "Standard" 80 24) PENDING ONLINE []
             0 0 "SYSTEM" 1 in
  let c := CallReservation (OpCheckIn "301") r in
  fst (perform clk c)
  = Raised (ValueError "Can only check in CONFIRMED reservations") /\
  snd (perform clk c) = AReservation r.
Proof.
  cbv zeta. split; [reflexivity|].
  apply (failed_call_leaves_aggregate_unchanged
           (mkClock (datetime_of_date 110) 110)
           (CallReservation (OpCheckIn "301")
              (mkReservation 1%N "ABCD1234" 7%N "DELUXE" (mkDateRange 110 112)
                 (mkGuestCount 2 0) (mkMoney 2000000 "IDR")
                 (mkCancellationPolicy "Standard" 80 24) PENDING ONLINE []
                 0 0 "SYSTEM" 1))
           (ValueError "Can only check in CONFIRMED reservations")).
  reflexivity.
Defined.

(** C2.  [modify] assigns the replacement fields without running the
    validators of the class.  A reservation made by [create] for two
    nights, still pending and checking in ten days from now, is modified
    to a valid [DateRange] of 31 nights: the call returns and leaves a
    stay of 31 nights, which [validate_date_range] rejects at
    construction. *)
Theorem modify_accepts_31_nights :
  let clk := mkClock (datetime_of_date 100) 100 in
  let policy := mkCancellationPolicy "Standard" 80 24 in
  exists r dr31 r',
    Reservation_create clk 1%N 7%N "DELUXE" (mkDateRange 110 112)
      (mkGuestCount 2 0) (mkMoney 2000000 "IDR") policy ONLINE "ABCD1234"
      "SYSTEM" = Returned r /\
    Reservation_invariants r /\
    is_modifiable clk r = true /\
    DateRange_new clk 110 141 = Returned dr31 /\
    run (ReservationMethods.modify clk (Some dr31) None None None) r
    = (Returned tt, r') /\
    nights (date_range r') = 31 /\
    validate_date_range (date_range r')
    = Raised (ValueError "Maximum stay is 30 nights") /\
    ~ Reservation_invariants r'.
Proof.
  cbv zeta. do 3 eexists.
  split; [reflexivity|]. split.
  { unfold Reservation_invariants; simpl. repeat split; try lia; discriminate. }
  split; [reflexivity|]. split; [reflexivity|]. split; [reflexivity|].
  split; [reflexivity|]. split; [reflexivity|].
  unfold Reservation_invariants; simpl. unfold nights; simpl. lia.
Qed.

(** [modify] likewise accepts a total of zero, which is a valid [Money]
    and which [validate_amount] rejects at construction. *)
Lemma modify_accepts_zero_total :
  let clk := mkClock (datetime_of_date 100) 100 in
  let r := mkReservation 1%N "ABCD1234" 7%N "DELUXE" (mkDateRange 110 112)
             (mkGuestCount 2 0) (mkMoney 2000000 "IDR")
             (mkCancellationPolicy "Standard" 80 24) PENDING ONLINE []
             0 0 "SYSTEM" 1 in
  exists zero r',
    Money_new 0 "IDR" = Returned zero /\
    run (ReservationMethods.modify clk None None None (Some zero)) r
    = (Returned tt, r') /\
    (amount (total_amount r') == 0)%Q /\
    ~ Reservation_invariants r'.
Proof.
  cbv zeta. do 2 eexists.
  split; [reflexivity|]. split; [reflexivity|]. split; [reflexivity|].
  unfold Reservation_invariants; simpl. intros (_ & _ & H).
  apply Qlt_irrefl in H. exact H.
Qed.

(** One call turns a status other than [CHECKED_IN] into [CHECKED_IN] only
    if it is [check_in] made on a [CONFIRMED] reservation. *)
Lemma step_into_checked_in (clk : Clock) (op : ReservationOp) (r : Reservation) :
  status (snd (run (Reservation_exec clk op) r)) = CHECKED_IN ->
  status r = CHECKED_IN \/
  (exists room, op = OpCheckIn room) /\ status r = CONFIRMED.
Proof.
  destruct op; simpl; reservation_run; split_ifs; simpl; intros H;
    try (left; exact H); try discriminate H.
  right. split; [eexists; reflexivity|].
  destruct (status r); simpl in *; try discriminate; reflexivity.
Qed.

Lemma Reservation_exec_all_cons (step : Clock * ReservationOp)
    (ops : list (Clock * ReservationOp)) (r : Reservation) :
  Reservation_exec_all (step :: ops) r =
  Reservation_exec_all ops (snd (run (Reservation_exec (fst step) (snd step)) r)).
Proof. reflexivity. Qed.

Lemma checked_in_has_a_check_in_step (ops : list (Clock * ReservationOp)) :
  forall r0,
    status r0 <> CHECKED_IN ->
    status (Reservation_exec_all ops r0) = CHECKED_IN ->
    exists before clk room after,
      ops = (before ++ (clk, OpCheckIn room) :: after)%list /\
      status (Reservation_exec_all before r0) = CONFIRMED /\
      status (Reservation_exec_all (before ++ [(clk, OpCheckIn room)])%list r0)
      = CHECKED_IN.
Proof.
  induction ops as [|[clk op] ops IH]; intros r0 Hstart Hend.
  - simpl in Hend. contradiction.
  - rewrite Reservation_exec_all_cons in Hend. simpl fst in Hend; simpl snd in Hend.
    destruct (ReservationStatus_eqb
                (status (snd (run (Reservation_exec clk op) r0))) CHECKED_IN)
      eqn:Hnow.
    + assert (Hin : status (snd (run (Reservation_exec clk op) r0)) = CHECKED_IN).
      { destruct (status (snd (run (Reservation_exec clk op) r0)));
          simpl in Hnow; try discriminate; reflexivity. }
      destruct (step_into_checked_in clk op r0 Hin) as [Hbad | [[room ->] Hconf]].
      * contradiction.
      * exists [], clk, room, ops. repeat split; assumption.
    + assert (Hnot : status (snd (run (Reservation_exec clk op) r0)) <> CHECKED_IN).
      { intros Heq. rewrite Heq in Hnow. discriminate. }
      destruct (IH _ Hnot Hend) as (before & clk' & room & after & -> & Hc & Hi).
      exists ((clk, op) :: before), clk', room, after.
      repeat split; assumption.
Qed.

(** C6.  Starting from a [PENDING] reservation, whatever calls are made,
    if the reservation ends [CHECKED_IN] then one of the calls was a
    [check_in] made while the status was [CONFIRMED]; and no single call
    on a [PENDING] reservation leaves it [CHECKED_IN]. *)
Theorem checked_in_only_through_confirmed
    (ops : list (Clock * ReservationOp)) (r0 : Reservation) :
  status r0 = PENDING ->
  (status (Reservation_exec_all ops r0) = CHECKED_IN ->
   exists before clk room after,
     ops = (before ++ (clk, OpCheckIn room) :: after)%list /\
     status (Reservation_exec_all before r0) = CONFIRMED /\
     status (Reservation_exec_all (before ++ [(clk, OpCheckIn room)])%list r0)
     = CHECKED_IN) /\
  (forall clk op,
      status (snd (run (Reservation_exec clk op) r0)) <> CHECKED_IN).
Proof.
  intros Hpending. split.
  - apply checked_in_has_a_check_in_step. rewrite Hpending. discriminate.
  - intros clk op H.
    destruct (step_into_checked_in clk op r0 H) as [Hbad | [_ Hbad]];
      rewrite Hpending in Hbad; discriminate.
Qed.

(** A pending reservation that is confirmed and then checked in on its
    check-in date. *)
Lemma checked_in_only_through_confirmed_witness :
  let r0 := mkReservation 1%N "ABCD1234" 7%N "DELUXE" (mkDateRange 110 112)
              (mkGuestCount 2 0) (mkMoney 2000000 "IDR")
              (mkCancellationPolicy "Standard" 80 24) PENDING ONLINE []
              0 0 "SYSTEM" 1 in
  let ops := [(mkClock (datetime_of_date 100) 100, OpConfirm true);
              (mkClock (datetime_of_date 110) 110, OpCheckIn "301")] in
  status r0 = PENDING /\
  status (Reservation_exec_all ops r0) = CHECKED_IN /\
  exists before clk room after,
    ops = (before ++ (clk, OpCheckIn room) :: after)%list /\
    status (Reservation_exec_all before r0) = CONFIRMED /\
    status (Reservation_exec_all (before ++ [(clk, OpCheckIn room)])%list r0)
    = CHECKED_IN.
Proof.
  cbv zeta. split; [reflexivity|]. split; [reflexivity|].
  apply (checked_in_only_through_confirmed
           [(mkClock (datetime_of_date 100) 100, OpConfirm true);
            (mkClock (datetime_of_date 110) 110, OpCheckIn "301")]
           (mkReservation 1%N "ABCD1234" 7%N "DELUXE" (mkDateRange 110 112)
              (mkGuestCount 2 0) (mkMoney 2000000 "IDR")
              (mkCancellationPolicy "Standard" 80 24) PENDING ONLINE []
              0 0 "SYSTEM" 1)); reflexivity.
Defined.

(** C8.  A call on a [Reservation] that returns refreshes [modified_at]
    and leaves the identity fields alone.  [confirm], [check_in],
    [check_out], [cancel] and [mark_no_show] add exactly one to [version],
    set the status of their transition and leave the booking details and
    the special requests alone; [modify] adds exactly one to [version],
    replaces the booking details it is given and leaves the status, the
    special requests and the other booking details alone;
    [add_special_request] appends the new request and leaves [version],
    the status and the booking details alone. *)
Theorem reservation_call_frame
    (clk : Clock) (op : ReservationOp) (r r' : Reservation) :
  run (Reservation_exec clk op) r = (Returned tt, r') ->
  modified_at r' = utcnow clk /\
  same_identity r r' /\
  match op with
  | OpAddSpecialRequest new_id ty desc =>
      version r' = version r /\
      special_requests r'
      = (special_requests r
         ++ [mkSpecialRequest new_id ty desc false None (utcnow clk)])%list /\
      status r' = status r /\
      same_booking r r'
  | OpModify dr gc rt ta =>
      version r' = version r + 1 /\
      special_requests r' = special_requests r /\
      status r' = status r /\
      date_range r' = replaced dr (date_range r) /\
      guest_count r' = replaced gc (guest_count r) /\
      room_type_id r' = replaced_room_type rt (room_type_id r) /\
      total_amount r' = replaced ta (total_amount r)
  | OpConfirm _ =>
      version r' = version r + 1 /\
      special_requests r' = special_requests r /\
      status r' = CONFIRMED /\ same_booking r r'
  | OpCheckIn _ =>
      version r' = version r + 1 /\
      special_requests r' = special_requests r /\
      status r' = CHECKED_IN /\ same_booking r r'
  | OpCheckOut =>
      version r' = version r + 1 /\
      special_requests r' = special_requests r /\
      status r' = CHECKED_OUT /\ same_booking r r'
  | OpCancel _ =>
      version r' = version r + 1 /\
      special_requests r' = special_requests r /\
      status r' = CANCELLED /\ same_booking r r'
  | OpMarkNoShow =>
      version r' = version r + 1 /\
      special_requests r' = special_requests r /\
      status r' = NO_SHOW /\ same_booking r r'
  end.
Proof.
  unfold same_identity, same_booking.
  destruct op; simpl; reservation_run; split_ifs; simpl; intros H;
    inversion H; subst; simpl; repeat split.
Qed.

(** Confirming a pending reservation: version 1 becomes 2. *)
Lemma reservation_call_frame_witness :
  let clk := mkClock 5000 100 in
  let r := mkReservation 1%N "ABCD1234" 7%N "DELUXE" (mkDateRange 110 112)
             (mkGuestCount 2 0) (mkMoney 2000000 "IDR")
             (mkCancellationPolicy "Standard" 80 24) PENDING ONLINE []
             0 0 "SYSTEM" 1 in
  let r' := mkReservation 1%N "ABCD1234" 7%N "DELUXE" (mkDateRange 110 112)
              (mkGuestCount 2 0) (mkMoney 2000000 "IDR")
              (mkCancellationPolicy "Standard" 80 24) CONFIRMED ONLINE []
              0 5000 "SYSTEM" 2 in
  run (Reservation_exec clk (OpConfirm true)) r = (Returned tt, r') /\
  modified_at r' = 5000 /\
  same_identity r r' /\
  version r' = version r + 1 /\
  special_requests r' = special_requests r /\
  status r' = CONFIRMED /\ same_booking r r'.
Proof.
  cbv zeta. split; [reflexivity|].
  apply (reservation_call_frame (mkClock 5000 100) (OpConfirm true)
           (mkReservation 1%N "ABCD1234" 7%N "DELUXE" (mkDateRange 110 112)
              (mkGuestCount 2 0) (mkMoney 2000000 "IDR")
              (mkCancellationPolicy "Standard" 80 24) PENDING ONLINE []
              0 0 "SYSTEM" 1)).
  reflexivity.
Defined.

(** [add_special_request] on the same reservation: the request is
    appended, [modified_at] moves, [version] stays 1. *)
Example add_special_request_keeps_version :
  let clk := mkClock 5000 100 in
  let r := mkReservation 1%N "ABCD1234" 7%N "DELUXE" (mkDateRange 110 112)
             (mkGuestCount 2 0) (mkMoney 2000000 "IDR")
             (mkCancellationPolicy "Standard" 80 24) PENDING ONLINE []
             0 0 "SYSTEM" 1 in
  run (ReservationMethods.add_special_request clk 9%N HIGH_FLOOR "top floor") r
  = (Returned tt,
     mkReservation 1%N "ABCD1234" 7%N "DELUXE" (mkDateRange 110 112)
       (mkGuestCount 2 0) (mkMoney 2000000 "IDR")
       (mkCancellationPolicy "Standard" 80 24) PENDING ONLINE
       [mkSpecialRequest 9%N HIGH_FLOOR "top floor" false None 5000]
       0 5000 "SYSTEM" 1).
Proof. reflexivity. Qed.

(** ** WaitlistEntry *)

(** The validator attached to [status] never sees
    [converted_reservation_id]: the field is declared after [status], so
    the key is absent from [values] and every status is let through. *)
Lemma validate_status_for_conversion_at_construction (st : WaitlistStatus) :
  validate_status_for_conversion st (mkValues None None) = Returned st.
Proof. reflexivity. Qed.

(** C7, as stated, fails: construction does not reject every combination
    that breaks the equivalence.  A [CONVERTED] status with no reservation
    id is accepted; no validator looks for that combination. *)
Lemma construction_accepts_converted_without_reservation :
  exists e,
    WaitlistEntry_new 1%N 7%N "DELUXE" (mkDateRange 110 112) (mkGuestCount 2 0)
      HIGH CONVERTED 0 (timedelta_of_days 14) None None = Returned e /\
    wl_status e = CONVERTED /\
    converted_reservation_id e = None /\
    ~ conversion_invariant e.
Proof.
  eexists. split; [reflexivity|]. split; [reflexivity|]. split; [reflexivity|].
  unfold conversion_invariant; simpl. intros [_ H].
  apply H; reflexivity.
Qed.

Lemma add_to_waitlist_conversion_invariant clk new_id guest room_type dates gc
    prio e :
  add_to_waitlist clk new_id guest room_type dates gc prio = Returned e ->
  conversion_invariant e.
Proof.
  unfold add_to_waitlist, WaitlistEntry_new. intros H.
  destruct (wl_validate_guest_count gc); [|discriminate].
  rewrite validate_status_for_conversion_at_construction in H.
  destruct (validate_expires_at _ _); [|discriminate].
  inversion H; subst. unfold conversion_invariant; simpl.
  split; [intros Hn; contradiction | discriminate].
Qed.

Lemma Waitlist_exec_conversion_invariant (clk : Clock) (op : WaitlistOp)
    (e : WaitlistEntry) :
  conversion_invariant e ->
  conversion_invariant (snd (run (Waitlist_exec clk op) e)).
Proof.
  unfold conversion_invariant. intros [H1 H2].
  destruct op; simpl;
    unfold WaitlistMethods.convert_to_reservation, WaitlistMethods.expire,
      WaitlistMethods.extend_expiry, WaitlistMethods.upgrade_priority,
      WaitlistMethods.mark_notified;
    unfold_method; split_ifs; simpl; try (split; assumption).
  - split; [reflexivity | discriminate].
  - destruct (wl_status e); simpl in *; try discriminate.
    split; [intros Hn | discriminate].
    apply H1 in Hn. discriminate.
Qed.

(** C7, amended.  Every entry reachable from [add_to_waitlist] has
    [converted_reservation_id] set exactly when its status is
    [CONVERTED]: [add_to_waitlist] returns an entry for which it holds,
    and [convert_to_reservation], [expire], [extend_expiry],
    [upgrade_priority] and [mark_notified] keep it, whether they return
    or raise. *)
Theorem reachable_entry_conversion_invariant (e : WaitlistEntry) :
  reachable_entry e -> conversion_invariant e.
Proof.
  induction 1 as [clk new_id guest room_type dates gc prio e Hadd
                 | clk op e _ IH].
  - eapply add_to_waitlist_conversion_invariant; eassumption.
  - apply Waitlist_exec_conversion_invariant; exact IH.
Qed.

(** An entry added and then converted to reservation 42. *)
Lemma reachable_entry_conversion_invariant_witness :
  let clk := mkClock 0 0 in
  let added := mkWaitlistEntry 1%N 7%N "DELUXE" (mkDateRange 110 112)
                 (mkGuestCount 2 0) HIGH ACTIVE 0 (timedelta_of_days 14)
                 None None in
  let converted := snd (run (Waitlist_exec clk (OpConvert 42%N)) added) in
  reachable_entry converted /\
  wl_status converted = CONVERTED /\
  converted_reservation_id converted = Some 42%N /\
  conversion_invariant converted.
Proof.
  cbv zeta.
  assert (Hreach : reachable_entry
            (snd (run (Waitlist_exec (mkClock 0 0) (OpConvert 42%N))
                    (mkWaitlistEntry 1%N 7%N "DELUXE" (mkDateRange 110 112)
                       (mkGuestCount 2 0) HIGH ACTIVE 0 (timedelta_of_days 14)
                       None None)))).
  { apply reachable_step.
    apply (reachable_added (mkClock 0 0) 1%N 7%N "DELUXE" (mkDateRange 110 112)
             (mkGuestCount 2 0) HIGH).
    reflexivity. }
  split; [exact Hreach|]. split; [reflexivity|]. split; [reflexivity|].
  exact (reachable_entry_conversion_invariant _ Hreach).
Defined.

(** [timedelta_days] is a floor: it is the whole number of days [d] with
    [d] days at most the duration and [d + 1] days more than it. *)
Lemma timedelta_days_floor (td : timedelta) :
  timedelta_days td * us_per_day <= td < (timedelta_days td + 1) * us_per_day.
Proof.
  unfold timedelta_days.
  assert (Hpos : 0 < us_per_day) by (unfold us_per_day, us_per_hour; lia).
  pose proof (Z.mul_div_le td us_per_day Hpos).
  pose proof (Z.mul_succ_div_gt td us_per_day Hpos).
  lia.
Qed.

(** On a duration that is not negative the floor is the truncation. *)
Lemma timedelta_days_truncated (td : timedelta) :
  0 <= td -> timedelta_days td = truncated_days td.
Proof.
  intros H. unfold timedelta_days, truncated_days.
  symmetry. apply Z.quot_div_nonneg; [exact H|].
  unfold us_per_day, us_per_hour; lia.
Qed.

(** C9, as stated, fails on an entry that has outlived its expiry.  An
    entry added at time 0 with [HIGH] priority expires after 14 days; one
    hour later, [expires_at - now] is minus one hour, whose [days] is
    [-1], not the truncated [0]: the score is 403, where whole-day counts
    truncated toward zero give 398. *)
Lemma priority_score_is_not_truncated :
  let now := mkClock (timedelta_of_days 14 + timedelta_of_hours 1) 14 in
  exists e,
    add_to_waitlist (mkClock 0 0) 1%N 7%N "DELUXE" (mkDateRange 110 112)
      (mkGuestCount 2 0) HIGH = Returned e /\
    calculate_priority_score now e = 403 /\
    spec_priority_score (utcnow now) e = 398 /\
    calculate_priority_score now e <> spec_priority_score (utcnow now) e.
Proof.
  cbv zeta. eexists. split; [reflexivity|].
  split; [reflexivity|]. split; [reflexivity|].
  vm_compute. discriminate.
Qed.

(** C9, amended.  [calculate_priority_score] returns exactly
    [ordinal * 100 + days_waiting * 2 + (14 - days_to_expiry) * 5], where
    the ordinals are LOW = 1, MEDIUM = 2, HIGH = 3, URGENT = 4 and
    [days_waiting], [days_to_expiry] are the whole-day counts of
    [now - created_at] and [expires_at - now] rounded toward minus
    infinity: the integers [d] with [d] days at most the duration and
    [d + 1] days more than it. *)
Theorem priority_score_formula (clk : Clock) (e : WaitlistEntry) :
  exists days_waiting days_to_expiry,
    calculate_priority_score clk e
    = Priority_value (priority e) * 100 + days_waiting * 2
      + (14 - days_to_expiry) * 5 /\
    (days_waiting * us_per_day <= utcnow clk - wl_created_at e
     < (days_waiting + 1) * us_per_day) /\
    (days_to_expiry * us_per_day <= expires_at e - utcnow clk
     < (days_to_expiry + 1) * us_per_day) /\
    Priority_value LOW = 1 /\ Priority_value MEDIUM = 2 /\
    Priority_value HIGH = 3 /\ Priority_value URGENT = 4.
Proof.
  exists (timedelta_days (utcnow clk - wl_created_at e)),
         (timedelta_days (expires_at e - utcnow clk)).
  split; [reflexivity|].
  split; [apply timedelta_days_floor|].
  split; [apply timedelta_days_floor|].
  repeat split.
Qed.

(** While the entry is neither younger than its creation nor past its
    expiry, the score is the one on truncated day counts. *)
Lemma priority_score_truncated_before_expiry (clk : Clock) (e : WaitlistEntry) :
  wl_created_at e <= utcnow clk <= expires_at e ->
  calculate_priority_score clk e = spec_priority_score (utcnow clk) e.
Proof.
  intros [H1 H2]. unfold calculate_priority_score, spec_priority_score.
  rewrite !timedelta_days_truncated by lia. reflexivity.
Qed.


(** * Further properties of the code *)

(** ** Availability *)

(** X1.  Reserving a count that is admitted and releasing the same count
    gives back the ledger's counters: [reserved_rooms] returns to its
    value, the other counters never moved, and [version] has advanced by
    two.  The release is admitted because the ledger did not start with a
    negative [reserved_rooms]. *)
Theorem reserve_then_release_restores
    (clk1 clk2 : Clock) (a : Availability) (count : Z) :
  check_availability a count = true ->
  0 <= reserved_rooms a ->
  exists a1,
    run (AvailabilityMethods.reserve_rooms clk1 count) a = (Returned tt, a1) /\
    run (AvailabilityMethods.release_rooms clk2 count) a1
    = (Returned tt,
       mkAvailability (av_room_type_id a) (availability_date a) (total_rooms a)
         (reserved_rooms a) (blocked_rooms a) (overbooking_threshold a)
         (utcnow clk2) (av_version a + 2)).
Proof.
  intros Hc Hres. eexists. split.
  - rewrite reserve_rooms_run, Hc. reflexivity.
  - rewrite release_rooms_run. simpl.
    assert (Hguard : (reserved_rooms a + count <? count) = false)
      by (apply Z.ltb_ge; lia).
    rewrite Hguard. f_equal. f_equal; lia.
Qed.

Lemma reserve_then_release_restores_witness :
  let a := mkAvailability "DELUXE_001" 0 10 3 1 2 0 1 in
  check_availability a 4 = true /\ 0 <= reserved_rooms a /\
  exists a1,
    run (AvailabilityMethods.reserve_rooms (mkClock 50 0) 4) a = (Returned tt, a1) /\
    run (AvailabilityMethods.release_rooms (mkClock 60 0) 4) a1
    = (Returned tt, mkAvailability "DELUXE_001" 0 10 3 1 2 60 3).
Proof.
  cbv zeta.
  assert (H0 : 0 <= reserved_rooms (mkAvailability "DELUXE_001" 0 10 3 1 2 0 1))
    by (simpl; lia).
  split; [reflexivity|]. split; [exact H0|].
  exact (reserve_then_release_restores (mkClock 50 0) (mkClock 60 0)
           (mkAvailability "DELUXE_001" 0 10 3 1 2 0 1) 4 eq_refl H0).
Defined.

(** X2.  Blocking a count that fits under [total_rooms] and unblocking the
    same count gives back the ledger's counters, with [version] advanced
    by two. *)
Theorem block_then_unblock_restores
    (clk1 clk2 : Clock) (a : Availability) (count : Z) (reason : string) :
  blocked_rooms a + count <= total_rooms a ->
  0 <= blocked_rooms a ->
  exists a1,
    run (AvailabilityMethods.block_rooms clk1 count reason) a = (Returned tt, a1) /\
    run (AvailabilityMethods.unblock_rooms clk2 count) a1
    = (Returned tt,
       mkAvailability (av_room_type_id a) (availability_date a) (total_rooms a)
         (reserved_rooms a) (blocked_rooms a) (overbooking_threshold a)
         (utcnow clk2) (av_version a + 2)).
Proof.
  intros Hfit Hblk. eexists. split.
  - rewrite block_rooms_run.
    assert (Hguard : (total_rooms a <? blocked_rooms a + count) = false)
      by (apply Z.ltb_ge; lia).
    rewrite Hguard. reflexivity.
  - rewrite unblock_rooms_run. simpl.
    assert (Hguard : (blocked_rooms a + count <? count) = false)
      by (apply Z.ltb_ge; lia).
    rewrite Hguard. f_equal. f_equal; lia.
Qed.

Lemma block_then_unblock_restores_witness :
  let a := mkAvailability "DELUXE_001" 0 10 3 1 2 0 1 in
  blocked_rooms a + 2 <= total_rooms a /\ 0 <= blocked_rooms a /\
  exists a1,
    run (AvailabilityMethods.block_rooms (mkClock 50 0) 2 "paint") a
    = (Returned tt, a1) /\
    run (AvailabilityMethods.unblock_rooms (mkClock 60 0) 2) a1
    = (Returned tt, mkAvailability "DELUXE_001" 0 10 3 1 2 60 3).
Proof.
  cbv zeta.
  assert (H1 : blocked_rooms (mkAvailability "DELUXE_001" 0 10 3 1 2 0 1) + 2
               <= total_rooms (mkAvailability "DELUXE_001" 0 10 3 1 2 0 1))
    by (simpl; lia).
  assert (H0 : 0 <= blocked_rooms (mkAvailability "DELUXE_001" 0 10 3 1 2 0 1))
    by (simpl; lia).
  split; [exact H1|]. split; [exact H0|].
  exact (block_then_unblock_restores (mkClock 50 0) (mkClock 60 0)
           (mkAvailability "DELUXE_001" 0 10 3 1 2 0 1) 2 "paint" H1 H0).
Defined.

Lemma Availability_exec_all_cons (step : Clock * AvailabilityOp)
    (ops : list (Clock * AvailabilityOp)) (a : Availability) :
  Availability_exec_all (step :: ops) a =
  Availability_exec_all ops (snd (run (Availability_exec (fst step) (snd step)) a)).
Proof. reflexivity. Qed.

(** No call assigns [total_rooms] or [overbooking_threshold]. *)
Lemma Availability_exec_keeps_configuration (clk : Clock) (op : AvailabilityOp)
    (a : Availability) :
  total_rooms (snd (run (Availability_exec clk op) a)) = total_rooms a /\
  overbooking_threshold (snd (run (Availability_exec clk op) a))
  = overbooking_threshold a.
Proof.
  destruct op; simpl; availability_run; split_ifs; simpl; split; reflexivity.
Qed.

Lemma capacity_safe_step (clk : Clock) (op : AvailabilityOp) (a : Availability) :
  capacity_safe op = true ->
  0 <= overbooking_threshold a ->
  capacity_invariant a ->
  capacity_invariant (snd (run (Availability_exec clk op) a)).
Proof.
  intros Hsafe Hob Hinv.
  destruct op as [n | n | n why | n]; simpl in *; try discriminate;
    availability_run.
  - destruct (check_availability a n) eqn:Hc; simpl; [|exact Hinv].
    apply check_availability_spec in Hc.
    unfold capacity_invariant, available_rooms in *; simpl. lia.
  - apply Z.leb_le in Hsafe.
    destruct (reserved_rooms a <? n); simpl; [exact Hinv|].
    unfold capacity_invariant in *; simpl. lia.
  - apply Z.leb_le in Hsafe.
    destruct (blocked_rooms a <? n); simpl; [exact Hinv|].
    unfold capacity_invariant in *; simpl. lia.
Qed.

(** X3.  On a ledger whose allowance is not negative, the capacity rule
    [reserved_rooms + blocked_rooms <= total_rooms + overbooking_threshold]
    survives every sequence of [reserve_rooms] calls with any count and of
    [release_rooms] and [unblock_rooms] calls with counts that are not
    negative, whether the calls return or raise. *)
Theorem capacity_kept_without_block
    (ops : list (Clock * AvailabilityOp)) (a : Availability) :
  forallb (fun step => capacity_safe (snd step)) ops = true ->
  0 <= overbooking_threshold a ->
  capacity_invariant a ->
  capacity_invariant (Availability_exec_all ops a).
Proof.
  revert a. induction ops as [|[clk op] ops IH]; intros a Hsafe Hob Hinv.
  - exact Hinv.
  - simpl in Hsafe. apply andb_true_iff in Hsafe as [Hop Hrest].
    rewrite Availability_exec_all_cons. simpl fst; simpl snd.
    apply IH; [exact Hrest | |].
    + destruct (Availability_exec_keeps_configuration clk op a) as [_ ->].
      exact Hob.
    + apply capacity_safe_step; assumption.
Qed.

Lemma capacity_kept_without_block_witness :
  let a := mkAvailability "DELUXE_001" 0 10 0 2 2 0 1 in
  let ops := [(mkClock 1 0, OpReserve 9); (mkClock 2 0, OpReserve 5);
              (mkClock 3 0, OpRelease 4); (mkClock 4 0, OpUnblock 1)] in
  reserved_rooms (Availability_exec_all ops a) = 5 /\
  blocked_rooms (Availability_exec_all ops a) = 1 /\
  capacity_invariant (Availability_exec_all ops a).
Proof.
  cbv zeta. split; [reflexivity|]. split; [reflexivity|].
  apply (capacity_kept_without_block
           [(mkClock 1 0, OpReserve 9); (mkClock 2 0, OpReserve 5);
            (mkClock 3 0, OpRelease 4); (mkClock 4 0, OpUnblock 1)]
           (mkAvailability "DELUXE_001" 0 10 0 2 2 0 1)).
  - reflexivity.
  - simpl; lia.
  - unfold capacity_invariant; simpl; lia.
Defined.

Lemma counters_in_range_step (clk : Clock) (op : AvailabilityOp) (a : Availability) :
  nonneg_count op = true ->
  counters_in_range a ->
  counters_in_range (snd (run (Availability_exec clk op) a)).
Proof.
  intros Hn Hr. unfold counters_in_range in *.
  destruct op as [n | n | n why | n]; simpl in *; apply Z.leb_le in Hn;
    availability_run; split_ifs; simpl; try exact Hr;
    repeat match goal with
           | H : (_ <? _) = false |- _ => apply Z.ltb_ge in H
           end; lia.
Qed.

(** X4.  Calls whose counts are not negative keep the counters in range:
    starting from [0 <= reserved_rooms] and [0 <= blocked_rooms <=
    total_rooms], every sequence of the four calls with counts that are
    not negative ends in such a ledger. *)
Theorem counters_stay_in_range
    (ops : list (Clock * AvailabilityOp)) (a : Availability) :
  forallb (fun step => nonneg_count (snd step)) ops = true ->
  counters_in_range a ->
  counters_in_range (Availability_exec_all ops a).
Proof.
  revert a. induction ops as [|[clk op] ops IH]; intros a Hn Hr.
  - exact Hr.
  - simpl in Hn. apply andb_true_iff in Hn as [Hop Hrest].
    rewrite Availability_exec_all_cons. simpl fst; simpl snd.
    apply IH; [exact Hrest|].
    apply counters_in_range_step; assumption.
Qed.

Lemma counters_stay_in_range_witness :
  let a := mkAvailability "DELUXE_001" 0 10 0 0 2 0 1 in
  let ops := [(mkClock 1 0, OpReserve 3); (mkClock 2 0, OpBlock 11 "flood");
              (mkClock 3 0, OpBlock 4 "paint"); (mkClock 4 0, OpRelease 5)] in
  Availability_exec_all ops a = mkAvailability "DELUXE_001" 0 10 3 4 2 3 3 /\
  counters_in_range (Availability_exec_all ops a).
Proof.
  cbv zeta. split; [reflexivity|].
  apply (counters_stay_in_range
           [(mkClock 1 0, OpReserve 3); (mkClock 2 0, OpBlock 11 "flood");
            (mkClock 3 0, OpBlock 4 "paint"); (mkClock 4 0, OpRelease 5)]
           (mkAvailability "DELUXE_001" 0 10 0 0 2 0 1)).
  - reflexivity.
  - unfold counters_in_range; simpl; lia.
Defined.

(** X5.  One more room is refused exactly when the ledger is fully booked
    and cannot overbook: [check_availability(1)] is false if and only if
    [is_fully_booked] is true and [can_overbook] is false. *)
Theorem one_more_room_refused_iff (a : Availability) :
  check_availability a 1 = false <->
  is_fully_booked a = true /\ can_overbook a = false.
Proof.
  unfold check_availability, is_fully_booked, can_overbook.
  rewrite orb_false_iff, !Z.leb_gt, Z.leb_le, Z.ltb_ge.
  split.
  - intros [H1 H2]. split; lia.
  - intros [H1 H2]. split; lia.
Qed.

(** X6.  Construction accepts a ledger exactly when its four counters are
    not negative and [reserved_rooms <= total_rooms]: when
    [validate_capacity] runs, [overbooking_threshold] and the field being
    validated are not in [values] yet, so the allowance and
    [blocked_rooms] never enter the comparison. *)
Theorem Availability_new_accepts_iff (room : string) (day : date)
    (total reserved blocked overbooking : Z) (stamp : datetime) (ver : Z) :
  (0 <= total /\ 0 <= reserved <= total /\ 0 <= blocked /\ 0 <= overbooking ->
   Availability_new room day total reserved blocked overbooking stamp ver
   = Returned (mkAvailability room day total reserved blocked overbooking
                 stamp ver)) /\
  (~ (0 <= total /\ 0 <= reserved <= total /\ 0 <= blocked /\ 0 <= overbooking) ->
   Availability_new room day total reserved blocked overbooking stamp ver
   = Raised (ValidationError "validation error for Availability")).
Proof.
  unfold Availability_new, field_ge0, validate_capacity, validated, values_get.
  destruct (0 <=? total) eqn:Ht; destruct (0 <=? reserved) eqn:Hr;
    destruct (0 <=? blocked) eqn:Hb; destruct (0 <=? overbooking) eqn:Ho;
    simpl; rewrite ?Z.add_0_r;
    repeat (match goal with
            | |- context [?x <? ?y] => destruct (x <? y) eqn:?
            end; simpl; rewrite ?Z.add_0_r);
    repeat match goal with
           | H : (_ <=? _) = true |- _ => apply Z.leb_le in H
           | H : (_ <=? _) = false |- _ => apply Z.leb_gt in H
           | H : (_ <? _) = true |- _ => apply Z.ltb_lt in H
           | H : (_ <? _) = false |- _ => apply Z.ltb_ge in H
           end;
    split; intros Hx;
    first [reflexivity | lia | exfalso; apply Hx; lia].
Qed.

(** ** Value objects *)

(** X7.  A [DateRange] that was constructed starts no earlier than the
    day of its construction and lasts at least one night; on such a value
    [validate_date_range] can only object to a stay of more than 30
    nights. *)
Theorem constructed_DateRange_has_a_night
    (clk : Clock) (ci co : date) (dr : DateRange) :
  DateRange_new clk ci co = Returned dr ->
  dr = mkDateRange ci co /\
  today clk <= check_in_date dr /\
  1 <= nights dr /\
  validate_date_range dr =
  if 30 <? nights dr
  then Raised (ValueError "Maximum stay is 30 nights")
  else Returned dr.
Proof.
  unfold DateRange_new. intros H.
  destruct (ci <? today clk) eqn:Hpast; [discriminate|].
  destruct (co <=? ci) eqn:Horder; [discriminate|].
  inversion H; subst. apply Z.ltb_ge in Hpast. apply Z.leb_gt in Horder.
  unfold validate_date_range, nights; simpl.
  assert (Hn : (co - ci <? 1) = false) by (apply Z.ltb_ge; lia).
  rewrite Hn. repeat split; try lia.
Qed.

Lemma constructed_DateRange_has_a_night_witness :
  DateRange_new (mkClock 0 100) 110 145 = Returned (mkDateRange 110 145) /\
  nights (mkDateRange 110 145) = 35 /\
  validate_date_range (mkDateRange 110 145)
  = Raised (ValueError "Maximum stay is 30 nights").
Proof.
  split; [reflexivity|]. split; [reflexivity|].
  destruct (constructed_DateRange_has_a_night (mkClock 0 100) 110 145
              (mkDateRange 110 145) eq_refl) as (_ & _ & _ & H).
  exact H.
Defined.




(** X9.  Cancelling earlier never pays less: for a valid policy and
    total, the refund for a cancellation date is at least the refund for
    any later cancellation date. *)
Theorem earlier_cancellation_refunds_no_less
    (p : CancellationPolicy) (total : Money) (earlier later check_in : date) :
  CancellationPolicy_valid p ->
  Money_valid total ->
  earlier <= later ->
  exists refund_earlier refund_later,
    calculate_refund p total earlier check_in = Returned refund_earlier /\
    calculate_refund p total later check_in = Returned refund_later /\
    (amount refund_later <= amount refund_earlier)%Q.
Proof.
  intros Hp Ht Hle.
  rewrite !(calculate_refund_run p total _ check_in Hp Ht).
  do 2 eexists. split; [reflexivity|]. split; [reflexivity|]. cbn [amount].
  destruct Hp as (Hlo & Hhi & _). unfold Money_valid in Ht.
  assert (Hshare : (0 <= decimal_round
                          (amount total
                           * decimal_round (refund_percentage p / 100)))%Q).
  { apply decimal_round_nonneg.
    apply Qmult_le_0_compat; [exact Ht|].
    apply decimal_round_nonneg.
    apply Qle_shift_div_l; [reflexivity|]. rewrite Qmult_0_l. exact Hlo. }
  destruct (deadline_hours p <=? (check_in - later) * 24) eqn:Hl;
    destruct (deadline_hours p <=? (check_in - earlier) * 24) eqn:He.
  - apply Qle_refl.
  - apply Z.leb_le in Hl. apply Z.leb_gt in He. lia.
  - exact Hshare.
  - apply Qle_refl.
Qed.

Lemma earlier_cancellation_refunds_no_less_witness :
  let p := mkCancellationPolicy "Standard" 80 24 in
  let total := mkMoney 1000000 "IDR" in
  CancellationPolicy_valid p /\ Money_valid total /\ 19999 <= 20000 /\
  exists refund_earlier refund_later,
    calculate_refund p total 19999 20000 = Returned refund_earlier /\
    calculate_refund p total 20000 20000 = Returned refund_later /\
    (amount refund_later <= amount refund_earlier)%Q.
Proof.
  cbv zeta.
  assert (Hp : CancellationPolicy_valid (mkCancellationPolicy "Standard" 80 24)).
  { unfold CancellationPolicy_valid; simpl.
    repeat split; [discriminate | discriminate | lia]. }
  assert (Ht : Money_valid (mkMoney 1000000 "IDR")).
  { unfold Money_valid; simpl. discriminate. }
  assert (Hle : 19999 <= 20000) by lia.
  split; [exact Hp|]. split; [exact Ht|]. split; [exact Hle|].
  exact (earlier_cancellation_refunds_no_less
           (mkCancellationPolicy "Standard" 80 24) (mkMoney 1000000 "IDR")
           19999 20000 20000 Hp Ht Hle).
Defined.

(** ** Reservation *)

(** X10.  [Reservation.create] returns a reservation exactly when the
    stay is of 1 to 30 nights, there is at least one adult, the number of
    children is not negative and the total is positive; the reservation
    it returns is [PENDING], at version 1, without special requests, and
    satisfies the invariants of the class. *)
Theorem Reservation_create_accepts_iff (clk : Clock) (new_id guest : UUID)
    (room_type : string) (dr : DateRange) (gc : GuestCount) (total : Money)
    (policy : CancellationPolicy) (source : BookingSource)
    (code by_whom : string) :
  let made := Reservation_create clk new_id guest room_type dr gc total policy
                source code by_whom in
  ((1 <= nights dr <= 30 /\ 1 <= adults gc /\ 0 <= children gc /\
    (0 < amount total)%Q) <->
   made = Returned (mkReservation new_id code guest room_type dr gc total policy
                      PENDING source [] (utcnow clk) (utcnow clk) by_whom 1)) /\
  (forall r, made = Returned r ->
             Reservation_invariants r /\ status r = PENDING /\ version r = 1 /\
             special_requests r = []).
Proof.
  cbv zeta.
  unfold Reservation_create, validate_date_range, validate_guest_count,
    validate_amount, Reservation_invariants.
  destruct (nights dr <? 1) eqn:H1; [|destruct (30 <? nights dr) eqn:H30];
    (destruct (adults gc <? 1) eqn:Ha; [|destruct (children gc <? 0) eqn:Hc]);
    destruct (Qle_bool (amount total) 0) eqn:Hq;
    repeat match goal with
           | H : (_ <? _) = true |- _ => apply Z.ltb_lt in H
           | H : (_ <? _) = false |- _ => apply Z.ltb_ge in H
           end;
    try (split; [split; [intros; lia | discriminate] | discriminate]).
  - apply Qle_bool_iff in Hq.
    split; [split; [intros (_ & _ & _ & Hpos) | discriminate] | discriminate].
    exfalso. apply (Qlt_irrefl 0). eapply Qlt_le_trans; eassumption.
  - assert (Hpos : (0 < amount total)%Q).
    { apply Qnot_le_lt. intros Hle. apply Qle_bool_iff in Hle.
      rewrite Hle in Hq. discriminate. }
    split.
    + split; [reflexivity | intros _; repeat split; try lia; exact Hpos].
    + intros r Hr. inversion Hr; subst; simpl.
      repeat split; try lia; exact Hpos.
Qed.

Lemma terminal_step_frozen (clk : Clock) (op : ReservationOp) (r : Reservation) :
  is_terminal (status r) = true ->
  status (snd (run (Reservation_exec clk op) r)) = status r /\
  version (snd (run (Reservation_exec clk op) r)) = version r /\
  same_booking r (snd (run (Reservation_exec clk op) r)).
Proof.
  intros Ht. unfold same_booking.
  destruct op; simpl; reservation_run; unfold is_modifiable, is_cancellable;
    destruct (status r) eqn:Hst; simpl in *; try discriminate;
    rewrite ?Hst; repeat split.
Qed.

(** X11.  [CHECKED_OUT], [CANCELLED] and [NO_SHOW] are final: whatever
    calls are made on a reservation in one of these statuses, its status,
    its version and its booking details stay what they are; only
    [add_special_request] still has an effect. *)
Theorem terminal_status_is_final
    (ops : list (Clock * ReservationOp)) (r : Reservation) :
  is_terminal (status r) = true ->
  status (Reservation_exec_all ops r) = status r /\
  version (Reservation_exec_all ops r) = version r /\
  same_booking r (Reservation_exec_all ops r).
Proof.
  revert r. induction ops as [|[clk op] ops IH]; intros r Ht.
  - unfold same_booking. simpl. repeat split.
  - rewrite Reservation_exec_all_cons. simpl fst; simpl snd.
    destruct (terminal_step_frozen clk op r Ht) as (Hs & Hv & Hb).
    assert (Ht' : is_terminal (status (snd (run (Reservation_exec clk op) r)))
                  = true) by (rewrite Hs; exact Ht).
    destruct (IH _ Ht') as (Hs' & Hv' & Hb').
    unfold same_booking in *.
    destruct Hb as (B1 & B2 & B3 & B4). destruct Hb' as (C1 & C2 & C3 & C4).
    repeat split; congruence.
Qed.

Lemma terminal_status_is_final_witness :
  let r := mkReservation 1%N "ABCD1234" 7%N "DELUXE" (mkDateRange 110 112)
             (mkGuestCount 2 0) (mkMoney 2000000 "IDR")
             (mkCancellationPolicy "Standard" 80 24) CANCELLED ONLINE []
             0 0 "SYSTEM" 3 in
  let ops := [(mkClock 10 100, OpConfirm true);
              (mkClock 20 100, OpModify None (Some (mkGuestCount 1 0)) None None);
              (mkClock 30 100, OpAddSpecialRequest 9%N OTHER "late arrival");
              (mkClock 40 100, OpMarkNoShow)] in
  modified_at (Reservation_exec_all ops r) = 30 /\
  status (Reservation_exec_all ops r) = CANCELLED /\
  version (Reservation_exec_all ops r) = 3 /\
  same_booking r (Reservation_exec_all ops r).
Proof.
  cbv zeta. split; [reflexivity|].
  apply (terminal_status_is_final
           [(mkClock 10 100, OpConfirm true);
            (mkClock 20 100, OpModify None (Some (mkGuestCount 1 0)) None None);
            (mkClock 30 100, OpAddSpecialRequest 9%N OTHER "late arrival");
            (mkClock 40 100, OpMarkNoShow)]
           (mkReservation 1%N "ABCD1234" 7%N "DELUXE" (mkDateRange 110 112)
              (mkGuestCount 2 0) (mkMoney 2000000 "IDR")
              (mkCancellationPolicy "Standard" 80 24) CANCELLED ONLINE []
              0 0 "SYSTEM" 3)).
  reflexivity.
Defined.

Lemma version_step (clk : Clock) (op : ReservationOp) (r : Reservation) :
  version r <= version (snd (run (Reservation_exec clk op) r)) <= version r + 1.
Proof.
  destruct op; simpl; reservation_run; split_ifs; simpl; lia.
Qed.

(** X12.  [version] never goes back: over any sequence of calls it does
    not decrease, and it grows by at most one per call. *)
Theorem version_never_decreases
    (ops : list (Clock * ReservationOp)) (r : Reservation) :
  version r <= version (Reservation_exec_all ops r)
  <= version r + Z.of_nat (length ops).
Proof.
  revert r. induction ops as [|[clk op] ops IH]; intros r.
  - simpl. lia.
  - rewrite Reservation_exec_all_cons. simpl fst; simpl snd.
    pose proof (version_step clk op r).
    pose proof (IH (snd (run (Reservation_exec clk op) r))).
    simpl length. lia.
Qed.

(** X13.  The whole stay: a [PENDING] reservation that is confirmed with
    payment, checked in on or after its check-in date and checked out
    ends [CHECKED_OUT] three versions later with its booking details
    untouched, and [check_out] returns the full [total_amount]. *)
Theorem confirm_check_in_check_out
    (clk1 clk2 clk3 : Clock) (room : string) (r : Reservation) :
  status r = PENDING ->
  check_in_date (date_range r) <= datetime_date (utcnow clk2) ->
  exists r1 r2 r3,
    run (ReservationMethods.confirm clk1 true) r = (Returned tt, r1) /\
    run (ReservationMethods.check_in clk2 room) r1 = (Returned tt, r2) /\
    run (ReservationMethods.check_out clk3) r2 = (Returned (total_amount r), r3) /\
    status r3 = CHECKED_OUT /\
    version r3 = version r + 3 /\
    modified_at r3 = utcnow clk3 /\
    same_booking r r3 /\ same_identity r r3 /\
    special_requests r3 = special_requests r.
Proof.
  intros Hst Hday. do 3 eexists.
  split; [rewrite confirm_run, Hst; reflexivity|].
  split.
  { rewrite check_in_run. simpl.
    assert (Hg : (datetime_date (utcnow clk2) <? check_in_date (date_range r))
                 = false) by (apply Z.ltb_ge; exact Hday).
    rewrite Hg. reflexivity. }
  split; [rewrite check_out_run; reflexivity|].
  unfold same_booking, same_identity. simpl.
  repeat split. lia.
Qed.

Lemma confirm_check_in_check_out_witness :
  let r := mkReservation 1%N "ABCD1234" 7%N "DELUXE" (mkDateRange 110 112)
             (mkGuestCount 2 0) (mkMoney 2000000 "IDR")
             (mkCancellationPolicy "Standard" 80 24) PENDING ONLINE []
             0 0 "SYSTEM" 1 in
  status r = PENDING /\
  check_in_date (date_range r)
  <= datetime_date (utcnow (mkClock (datetime_of_date 110) 110)) /\
  exists r1 r2 r3,
    run (ReservationMethods.confirm (mkClock 5 100) true) r = (Returned tt, r1) /\
    run (ReservationMethods.check_in (mkClock (datetime_of_date 110) 110) "301") r1
    = (Returned tt, r2) /\
    run (ReservationMethods.check_out (mkClock (datetime_of_date 112) 112)) r2
    = (Returned (total_amount r), r3) /\
    status r3 = CHECKED_OUT /\
    version r3 = version r + 3 /\
    modified_at r3 = utcnow (mkClock (datetime_of_date 112) 112) /\
    same_booking r r3 /\ same_identity r r3 /\
    special_requests r3 = special_requests r.
Proof.
  cbv zeta.
  assert (Hday : check_in_date (date_range
            (mkReservation 1%N "ABCD1234" 7%N "DELUXE" (mkDateRange 110 112)
               (mkGuestCount 2 0) (mkMoney 2000000 "IDR")
               (mkCancellationPolicy "Standard" 80 24) PENDING ONLINE []
               0 0 "SYSTEM" 1))
          <= datetime_date (utcnow (mkClock (datetime_of_date 110) 110))).
  { vm_compute. discriminate. }
  split; [reflexivity|]. split; [exact Hday|].
  apply (confirm_check_in_check_out (mkClock 5 100)
           (mkClock (datetime_of_date 110) 110)
           (mkClock (datetime_of_date 112) 112) "301"
           (mkReservation 1%N "ABCD1234" 7%N "DELUXE" (mkDateRange 110 112)
              (mkGuestCount 2 0) (mkMoney 2000000 "IDR")
              (mkCancellationPolicy "Standard" 80 24) PENDING ONLINE []
              0 0 "SYSTEM" 1)); [reflexivity | exact Hday].
Defined.



Lemma validate_date_range_passed (v : DateRange) :
  validate_date_range v = Returned v -> 1 <= nights v <= 30.
Proof.
  unfold validate_date_range.
  destruct (nights v <? 1) eqn:H1; [discriminate|].
  destruct (30 <? nights v) eqn:H30; [discriminate|].
  apply Z.ltb_ge in H1. apply Z.ltb_ge in H30. lia.
Qed.

Lemma validate_guest_count_passed (v : GuestCount) :
  validate_guest_count v = Returned v -> 1 <= adults v.
Proof.
  unfold validate_guest_count.
  destruct (adults v <? 1) eqn:H1; [discriminate|].
  apply Z.ltb_ge in H1. lia.
Qed.

Lemma validate_amount_passed (v : Money) :
  validate_amount v = Returned v -> (0 < amount v)%Q.
Proof.
  unfold validate_amount.
  destruct (Qle_bool (amount v) 0) eqn:Hq; [discriminate|].
  intros _. apply Qnot_le_lt. intros Hle. apply Qle_bool_iff in Hle.
  rewrite Hle in Hq. discriminate.
Qed.

(** X15.  [modify] keeps the invariants of the class when the caller has
    validated what it passes: if the reservation satisfies them and every
    replacement given passes the validator of its field, the reservation
    satisfies them after a successful [modify]. *)
Theorem modify_keeps_invariants_of_validated_values
    (clk : Clock) (dr : option DateRange) (gc : option GuestCount)
    (rt : option string) (ta : option Money) (r r' : Reservation) :
  Reservation_invariants r ->
  passes validate_date_range dr ->
  passes validate_guest_count gc ->
  passes validate_amount ta ->
  run (ReservationMethods.modify clk dr gc rt ta) r = (Returned tt, r') ->
  Reservation_invariants r'.
Proof.
  intros (Hn & Ha & Hq) Hdr Hgc Hta Hrun.
  rewrite modify_run in Hrun.
  destruct (negb (is_modifiable clk r)); [discriminate|].
  inversion Hrun; subst. unfold Reservation_invariants; simpl.
  split; [|split].
  - destruct dr as [v|]; simpl in *;
      [apply validate_date_range_passed; exact Hdr | exact Hn].
  - destruct gc as [v|]; simpl in *;
      [apply validate_guest_count_passed; exact Hgc | exact Ha].
  - destruct ta as [v|]; simpl in *;
      [apply validate_amount_passed; exact Hta | exact Hq].
Qed.

Lemma modify_keeps_invariants_of_validated_values_witness :
  let clk := mkClock (datetime_of_date 100) 100 in
  let r := mkReservation 1%N "ABCD1234" 7%N "DELUXE" (mkDateRange 110 112)
             (mkGuestCount 2 0) (mkMoney 2000000 "IDR")
             (mkCancellationPolicy "Standard" 80 24) PENDING ONLINE []
             0 0 "SYSTEM" 1 in
  let r' := mkReservation 1%N "ABCD1234" 7%N "SUITE" (mkDateRange 110 115)
              (mkGuestCount 2 0) (mkMoney 5000000 "IDR")
              (mkCancellationPolicy "Standard" 80 24) PENDING ONLINE []
              0 (datetime_of_date 100) "SYSTEM" 2 in
  run (ReservationMethods.modify clk (Some (mkDateRange 110 115)) None
         (Some "SUITE") (Some (mkMoney 5000000 "IDR"))) r = (Returned tt, r') /\
  Reservation_invariants r'.
Proof.
  cbv zeta. split; [reflexivity|].
  apply (modify_keeps_invariants_of_validated_values
           (mkClock (datetime_of_date 100) 100) (Some (mkDateRange 110 115)) None
           (Some "SUITE") (Some (mkMoney 5000000 "IDR"))
           (mkReservation 1%N "ABCD1234" 7%N "DELUXE" (mkDateRange 110 112)
              (mkGuestCount 2 0) (mkMoney 2000000 "IDR")
              (mkCancellationPolicy "Standard" 80 24) PENDING ONLINE []
              0 0 "SYSTEM" 1)).
  - unfold Reservation_invariants, nights; simpl.
    repeat split; try lia; discriminate.
  - reflexivity.
  - exact I.
  - reflexivity.
  - reflexivity.
Defined.

(** ** WaitlistEntry *)

Lemma us_per_day_pos : 0 < us_per_day.
Proof. unfold us_per_day, us_per_hour. lia. Qed.

Lemma timedelta_days_of_days (n : Z) : timedelta_days (timedelta_of_days n) = n.
Proof.
  unfold timedelta_days, timedelta_of_days.
  apply Z.div_mul. pose proof us_per_day_pos. lia.
Qed.

Lemma timedelta_days_add_days (td n : Z) :
  timedelta_days (td + timedelta_of_days n) = timedelta_days td + n.
Proof.
  unfold timedelta_days, timedelta_of_days.
  apply Z.div_add. pose proof us_per_day_pos. lia.
Qed.

Lemma timedelta_days_mono (a b : timedelta) :
  a <= b -> timedelta_days a <= timedelta_days b.
Proof.
  intros H. unfold timedelta_days.
  apply Z.div_le_mono; [exact us_per_day_pos | exact H].
Qed.

(** X16.  [add_to_waitlist] returns an entry exactly when the guest count
    has an adult; the entry is [ACTIVE], expires 14 days after its
    creation, was never notified nor converted, and at the instant of its
    creation its priority score is the ordinal of its priority times
    100. *)
Theorem add_to_waitlist_fresh_entry (clk : Clock) (new_id guest : UUID)
    (room_type : string) (dates : DateRange) (gc : GuestCount) (prio : Priority) :
  let fresh := mkWaitlistEntry new_id guest room_type dates gc prio ACTIVE
                 (utcnow clk) (utcnow clk + timedelta_of_days 14) None None in
  add_to_waitlist clk new_id guest room_type dates gc prio
  = (if adults gc <? 1
     then Raised (ValidationError "validation error for WaitlistEntry")
     else Returned fresh) /\
  calculate_priority_score clk fresh = Priority_value prio * 100.
Proof.
  cbv zeta. split.
  - unfold add_to_waitlist, WaitlistEntry_new, wl_validate_guest_count,
      validate_expires_at, validate_status_for_conversion.
    cbn [values_created_at values_converted_reservation_id].
    assert (Hexp : (utcnow clk + timedelta_of_days 14 <=? utcnow clk) = false).
    { apply Z.leb_gt. unfold timedelta_of_days. pose proof us_per_day_pos. lia. }
    rewrite Hexp. destruct (adults gc <? 1); reflexivity.
  - unfold calculate_priority_score.
    cbn [priority wl_created_at expires_at].
    replace (utcnow clk - utcnow clk) with (timedelta_of_days 0)
      by (unfold timedelta_of_days; lia).
    replace (utcnow clk + timedelta_of_days 14 - utcnow clk)
      with (timedelta_of_days 14) by lia.
    rewrite !timedelta_days_of_days. lia.
Qed.

(** X17.  [upgrade_priority] never lowers anything: the priority after the
    call is the higher of the old one and the requested one, the priority
    score does not decrease, and no other field changes. *)
Theorem upgrade_priority_takes_the_higher
    (clk : Clock) (new_priority : Priority) (e : WaitlistEntry) :
  let e' := snd (run (WaitlistMethods.upgrade_priority new_priority) e) in
  fst (run (WaitlistMethods.upgrade_priority new_priority) e) = Returned tt /\
  Priority_value (priority e')
  = Z.max (Priority_value (priority e)) (Priority_value new_priority) /\
  calculate_priority_score clk e <= calculate_priority_score clk e' /\
  e' = set_priority (priority e') e.
Proof.
  cbv zeta. unfold WaitlistMethods.upgrade_priority; unfold_method.
  unfold calculate_priority_score.
  destruct (Priority_value (priority e) <? Priority_value new_priority) eqn:Hlt;
    simpl.
  - apply Z.ltb_lt in Hlt. repeat split; try lia.
  - apply Z.ltb_ge in Hlt. repeat split; try lia.
    destruct e; reflexivity.
Qed.

(** X18.  Waiting only raises the score: for one entry, the priority
    score at a later instant is at least the score at an earlier one. *)
Theorem priority_score_grows_with_time (clk1 clk2 : Clock) (e : WaitlistEntry) :
  utcnow clk1 <= utcnow clk2 ->
  calculate_priority_score clk1 e <= calculate_priority_score clk2 e.
Proof.
  intros H. unfold calculate_priority_score.
  pose proof (timedelta_days_mono (utcnow clk1 - wl_created_at e)
                (utcnow clk2 - wl_created_at e) ltac:(lia)).
  pose proof (timedelta_days_mono (expires_at e - utcnow clk2)
                (expires_at e - utcnow clk1) ltac:(lia)).
  lia.
Qed.

Lemma priority_score_grows_with_time_witness :
  let e := mkWaitlistEntry 1%N 7%N "DELUXE" (mkDateRange 110 112)
             (mkGuestCount 2 0) LOW ACTIVE 0 (timedelta_of_days 14) None None in
  let day3 := mkClock (timedelta_of_days 3) 3 in
  let day5 := mkClock (timedelta_of_days 5) 5 in
  calculate_priority_score day3 e = 121 /\
  calculate_priority_score day5 e = 135 /\
  calculate_priority_score day3 e <= calculate_priority_score day5 e.
Proof.
  cbv zeta. split; [reflexivity|]. split; [reflexivity|].
  apply (priority_score_grows_with_time (mkClock (timedelta_of_days 3) 3)
           (mkClock (timedelta_of_days 5) 5)).
  vm_compute. discriminate.
Defined.

(** X19.  [extend_expiry] on an [ACTIVE] entry raises [OverflowError] and
    changes nothing when the number of days is beyond the 999999999 a
    [timedelta] can hold or the moved [expires_at] leaves the range of
    [datetime]; otherwise it returns, moves [expires_at] by the given
    number of days, whatever its sign, and lowers the priority score by
    exactly five points per day.  On an entry that is not [ACTIVE] it
    returns and changes nothing. *)
Theorem extend_expiry_costs_five_per_day
    (clk : Clock) (additional_days : Z) (e : WaitlistEntry) :
  let res := run (WaitlistMethods.extend_expiry additional_days) e in
  let moved := expires_at e + timedelta_of_days additional_days in
  if WaitlistStatus_eqb (wl_status e) ACTIVE
  then
    if (- timedelta_max_days <=? additional_days)
       && (additional_days <=? timedelta_max_days)
       && ((datetime_min <=? moved) && (moved <=? datetime_max))
    then res = (Returned tt, set_expires_at moved e) /\
         calculate_priority_score clk (snd res)
         = calculate_priority_score clk e - 5 * additional_days
    else res = (Raised OverflowError, e)
  else res = (Returned tt, e).
Proof.
  cbv zeta. unfold WaitlistMethods.extend_expiry; unfold_method.
  unfold timedelta_new_days, datetime_add.
  destruct (WaitlistStatus_eqb (wl_status e) ACTIVE); [|reflexivity].
  destruct ((- timedelta_max_days <=? additional_days)
            && (additional_days <=? timedelta_max_days)); [|reflexivity].
  cbn [andb].
  destruct ((datetime_min <=? expires_at e + timedelta_of_days additional_days)
            && (expires_at e + timedelta_of_days additional_days <=? datetime_max));
    [|reflexivity].
  cbn [snd]. split; [reflexivity|].
  unfold calculate_priority_score, set_expires_at.
  cbn [priority wl_created_at expires_at].
  replace (expires_at e + timedelta_of_days additional_days - utcnow clk)
    with (expires_at e - utcnow clk + timedelta_of_days additional_days)
    by lia.
  rewrite timedelta_days_add_days. lia.
Qed.

(** Two thousand million days are more than a [timedelta] holds, and
    three million days from year 1 are past year 9999. *)
Example extend_expiry_overflows :
  let e := mkWaitlistEntry 1%N 7%N "DELUXE" (mkDateRange 110 112)
             (mkGuestCount 2 0) LOW ACTIVE 0 (timedelta_of_days 14) None None in
  run (WaitlistMethods.extend_expiry 2147483648) e = (Raised OverflowError, e) /\
  run (WaitlistMethods.extend_expiry 3652045) e = (Raised OverflowError, e) /\
  run (WaitlistMethods.extend_expiry 3652044) e
  = (Returned tt, set_expires_at (timedelta_of_days 3652058) e).
Proof. cbv zeta. repeat split. Qed.

Lemma Waitlist_exec_all_cons (step : Clock * WaitlistOp)
    (ops : list (Clock * WaitlistOp)) (e : WaitlistEntry) :
  Waitlist_exec_all (step :: ops) e =
  Waitlist_exec_all ops (snd (run (Waitlist_exec (fst step) (snd step)) e)).
Proof. reflexivity. Qed.

Lemma inactive_step_frozen (clk : Clock) (op : WaitlistOp) (e : WaitlistEntry) :
  WaitlistStatus_eqb (wl_status e) ACTIVE = false ->
  wl_status (snd (run (Waitlist_exec clk op) e)) = wl_status e /\
  converted_reservation_id (snd (run (Waitlist_exec clk op) e))
  = converted_reservation_id e /\
  expires_at (snd (run (Waitlist_exec clk op) e)) = expires_at e.
Proof.
  intros Hst.
  destruct op; simpl;
    unfold WaitlistMethods.convert_to_reservation, WaitlistMethods.expire,
      WaitlistMethods.extend_expiry, WaitlistMethods.upgrade_priority,
      WaitlistMethods.mark_notified;
    unfold_method; rewrite ?Hst; cbn [negb fst snd];
    split_ifs; cbn [fst snd]; repeat split.
Qed.

(** X20.  An entry that is no longer [ACTIVE] keeps its status, its
    [converted_reservation_id] and its [expires_at] through every sequence
    of calls: [CONVERTED], [EXPIRED] and [CANCELLED] are final, and only
    the priority and the notification time can still change. *)
Theorem inactive_entry_is_final
    (ops : list (Clock * WaitlistOp)) (e : WaitlistEntry) :
  WaitlistStatus_eqb (wl_status e) ACTIVE = false ->
  wl_status (Waitlist_exec_all ops e) = wl_status e /\
  converted_reservation_id (Waitlist_exec_all ops e) = converted_reservation_id e /\
  expires_at (Waitlist_exec_all ops e) = expires_at e.
Proof.
  revert e. induction ops as [|[clk op] ops IH]; intros e Hst.
  - simpl. repeat split.
  - rewrite Waitlist_exec_all_cons. simpl fst; simpl snd.
    destruct (inactive_step_frozen clk op e Hst) as (Hs & Hc & Hx).
    assert (Hst' : WaitlistStatus_eqb
                     (wl_status (snd (run (Waitlist_exec clk op) e))) ACTIVE
                   = false) by (rewrite Hs; exact Hst).
    destruct (IH _ Hst') as (Hs' & Hc' & Hx').
    repeat split; congruence.
Qed.

Lemma inactive_entry_is_final_witness :
  let e := mkWaitlistEntry 1%N 7%N "DELUXE" (mkDateRange 110 112)
             (mkGuestCount 2 0) LOW EXPIRED 0 (timedelta_of_days 14) None None in
  let ops := [(mkClock 1 0, OpConvert 42%N); (mkClock 2 0, OpExtendExpiry 7);
              (mkClock 3 0, OpUpgradePriority URGENT);
              (mkClock 4 0, OpMarkNotified); (mkClock 5 0, OpExpire)] in
  priority (Waitlist_exec_all ops e) = URGENT /\
  notified_at (Waitlist_exec_all ops e) = Some 4 /\
  wl_status (Waitlist_exec_all ops e) = EXPIRED /\
  converted_reservation_id (Waitlist_exec_all ops e) = None /\
  expires_at (Waitlist_exec_all ops e) = timedelta_of_days 14.
Proof.
  cbv zeta. split; [reflexivity|]. split; [reflexivity|].
  apply (inactive_entry_is_final
           [(mkClock 1 0, OpConvert 42%N); (mkClock 2 0, OpExtendExpiry 7);
            (mkClock 3 0, OpUpgradePriority URGENT);
            (mkClock 4 0, OpMarkNotified); (mkClock 5 0, OpExpire)]
           (mkWaitlistEntry 1%N 7%N "DELUXE" (mkDateRange 110 112)
              (mkGuestCount 2 0) LOW EXPIRED 0 (timedelta_of_days 14) None None)).
  reflexivity.
Defined.

(** X21.  After [mark_notified], a reminder is due again exactly from the
    instant three days later: [should_notify_again] is true if and only if
    the clock has reached the notification time plus three days.  An entry
    that was never notified is always due. *)
Theorem reminder_due_after_three_days
    (clk later : Clock) (e : WaitlistEntry) :
  should_notify_again later (snd (run (WaitlistMethods.mark_notified clk) e))
  = (utcnow clk + timedelta_of_days 3 <=? utcnow later) /\
  should_notify_again later (set_notified_at None e) = true.
Proof.
  split; [|reflexivity].
  unfold WaitlistMethods.mark_notified; unfold_method. cbn [snd].
  unfold should_notify_again, set_notified_at. cbn [notified_at].
  unfold timedelta_days, timedelta_of_days.
  pose proof us_per_day_pos as Hpos.
  destruct (utcnow clk + 3 * us_per_day <=? utcnow later) eqn:Hdue.
  - apply Z.leb_le in Hdue. apply Z.leb_le.
    apply Z.div_le_lower_bound; [exact Hpos | lia].
  - apply Z.leb_gt in Hdue. apply Z.leb_gt.
    apply Z.div_lt_upper_bound; [exact Hpos | lia].
Qed.

(** X22.  Once [expire] has been called, the entry cannot be converted:
    whatever the entry was, [convert_to_reservation] after [expire] raises
    and leaves the entry as [expire] left it, and a second [expire]
    changes nothing. *)
Theorem expired_entry_cannot_be_converted
    (reservation : UUID) (e : WaitlistEntry) :
  let e1 := snd (run WaitlistMethods.expire e) in
  fst (run WaitlistMethods.expire e) = Returned tt /\
  run (WaitlistMethods.convert_to_reservation reservation) e1
  = (Raised (ValueError "Can only convert ACTIVE entries"), e1) /\
  run WaitlistMethods.expire e1 = (Returned tt, e1).
Proof.
  cbv zeta.
  unfold WaitlistMethods.expire, WaitlistMethods.convert_to_reservation;
    unfold_method.
  destruct (wl_status e) eqn:Hst; simpl; rewrite ?Hst; simpl;
    repeat split.
Qed.

(** ** Repositories *)

Section StorageFacts.
Context {K V : Type}.
Variable key_eqb : K -> K -> bool.
Variable key_of : V -> K.
Hypothesis key_eqb_eq : forall a b, key_eqb a b = true <-> a = b.

Lemma key_eqb_refl (k : K) : key_eqb k k = true.
Proof. apply key_eqb_eq. reflexivity. Qed.

Lemma key_eqb_neq (a b : K) : a <> b -> key_eqb a b = false.
Proof.
  intros H. destruct (key_eqb a b) eqn:E; [|reflexivity].
  apply key_eqb_eq in E. contradiction.
Qed.

Lemma storage_get_some (k : K) (s : list V) (v : V) :
  storage_get key_eqb key_of k s = Some v -> key_of v = k /\ In v s.
Proof.
  induction s as [|x s IH]; simpl; [discriminate|].
  destruct (key_eqb (key_of x) k) eqn:E.
  - intros H. inversion H; subst. apply key_eqb_eq in E. auto.
  - intros H. destruct (IH H). auto.
Qed.

Lemma storage_get_none (k : K) (s : list V) :
  storage_get key_eqb key_of k s = None <-> ~ In k (map key_of s).
Proof.
  induction s as [|x s IH]; simpl.
  - split; [intros _ [] | reflexivity].
  - destruct (key_eqb (key_of x) k) eqn:E.
    + apply key_eqb_eq in E. split; [discriminate | intros H; exfalso; auto].
    + rewrite IH. split.
      * intros H [Hx | Hin]; [|auto].
        rewrite Hx, key_eqb_refl in E. discriminate.
      * intros H Hin. auto.
Qed.

Lemma storage_get_set_same (v : V) (s : list V) :
  storage_get key_eqb key_of (key_of v) (storage_set key_eqb key_of v s) = Some v.
Proof.
  induction s as [|x s IH]; simpl.
  - rewrite key_eqb_refl. reflexivity.
  - destruct (key_eqb (key_of x) (key_of v)) eqn:E; simpl.
    + rewrite key_eqb_refl. reflexivity.
    + rewrite E. exact IH.
Qed.

Lemma storage_get_set_other (k : K) (v : V) (s : list V) :
  k <> key_of v ->
  storage_get key_eqb key_of k (storage_set key_eqb key_of v s)
  = storage_get key_eqb key_of k s.
Proof.
  intros Hk. induction s as [|x s IH]; simpl.
  - rewrite key_eqb_neq by congruence. reflexivity.
  - destruct (key_eqb (key_of x) (key_of v)) eqn:E; simpl.
    + apply key_eqb_eq in E.
      rewrite !key_eqb_neq by congruence. reflexivity.
    + destruct (key_eqb (key_of x) k); [reflexivity | exact IH].
Qed.

Lemma storage_set_keys (v : V) (s : list V) :
  map key_of (storage_set key_eqb key_of v s)
  = if storage_mem key_eqb key_of (key_of v) s
    then map key_of s
    else (map key_of s ++ [key_of v])%list.
Proof.
  unfold storage_mem. induction s as [|x s IH]; simpl; [reflexivity|].
  destruct (key_eqb (key_of x) (key_of v)) eqn:E; simpl.
  - apply key_eqb_eq in E. rewrite E. reflexivity.
  - rewrite IH.
    destruct (storage_get key_eqb key_of (key_of v) s); reflexivity.
Qed.

Lemma storage_set_unique (v : V) (s : list V) :
  unique_keys key_of s -> unique_keys key_of (storage_set key_eqb key_of v s).
Proof.
  unfold unique_keys. intros Hs. rewrite storage_set_keys.
  unfold storage_mem.
  destruct (storage_get key_eqb key_of (key_of v) s) eqn:Hg; [exact Hs|].
  apply storage_get_none in Hg.
  apply NoDup_app; [exact Hs | constructor; [intros [] | constructor] |].
  intros a Hin [Ha | []]. subst. contradiction.
Qed.

Lemma storage_get_del_same (k : K) (s : list V) :
  unique_keys key_of s ->
  storage_get key_eqb key_of k (storage_del key_eqb key_of k s) = None.
Proof.
  unfold unique_keys. induction s as [|x s IH]; simpl; [reflexivity|].
  intros Hs. inversion Hs as [|? ? Hx Hrest]; subst.
  destruct (key_eqb (key_of x) k) eqn:E; simpl.
  - apply key_eqb_eq in E. subst. apply storage_get_none. exact Hx.
  - rewrite E. apply IH. exact Hrest.
Qed.

Lemma storage_get_del_other (k k' : K) (s : list V) :
  k' <> k ->
  storage_get key_eqb key_of k' (storage_del key_eqb key_of k s)
  = storage_get key_eqb key_of k' s.
Proof.
  intros Hk. induction s as [|x s IH]; simpl; [reflexivity|].
  destruct (key_eqb (key_of x) k) eqn:E; simpl.
  - apply key_eqb_eq in E. rewrite key_eqb_neq by congruence. reflexivity.
  - destruct (key_eqb (key_of x) k'); [reflexivity | exact IH].
Qed.

End StorageFacts.

Lemma N_eqb_eq (a b : UUID) : N.eqb a b = true <-> a = b.
Proof. apply N.eqb_eq. Qed.

Lemma AvKey_eqb_eq (a b : AvKey) : AvKey_eqb a b = true <-> a = b.
Proof.
  destruct a as [r1 d1], b as [r2 d2]. unfold AvKey_eqb; simpl.
  rewrite andb_true_iff, String.eqb_eq, Z.eqb_eq.
  split; [intros [-> ->]; reflexivity | intros H; inversion H; auto].
Qed.

(** X23.  [save] then [find_by_id]: after a reservation is saved,
    [find_by_id] of its id returns it, [find_by_id] of any other id
    returns what it returned before, and the ids in the storage are still
    pairwise different if they were. *)
Theorem save_then_find_by_id (r : Reservation) (s : ReservationStorage) :
  let s' := snd (run (InMemoryReservationRepository.save r) s) in
  fst (run (InMemoryReservationRepository.save r) s) = Returned r /\
  run (InMemoryReservationRepository.find_by_id (reservation_id r)) s'
  = (Returned (Some r), s') /\
  (forall id, id <> reservation_id r ->
     fst (run (InMemoryReservationRepository.find_by_id id) s')
     = fst (run (InMemoryReservationRepository.find_by_id id) s)) /\
  (unique_keys reservation_id s -> unique_keys reservation_id s').
Proof.
  cbv zeta.
  unfold InMemoryReservationRepository.save,
    InMemoryReservationRepository.find_by_id, mutate; unfold_method.
  cbn [fst snd].
  split; [reflexivity|]. split.
  - rewrite (storage_get_set_same N.eqb reservation_id N_eqb_eq). reflexivity.
  - split.
    + intros id Hid.
      rewrite (storage_get_set_other N.eqb reservation_id N_eqb_eq) by exact Hid.
      reflexivity.
    + apply (storage_set_unique N.eqb reservation_id N_eqb_eq).
Qed.

(** X24.  [update] refuses an unknown id: when no reservation with the id
    is stored it raises and the storage is as it was; otherwise it
    returns the reservation, [find_by_id] then returns it, no other id is
    affected and the number of stored reservations is the same. *)
Theorem update_requires_a_stored_id (r : Reservation) (s : ReservationStorage) :
  let s' := snd (run (InMemoryReservationRepository.update r) s) in
  (storage_get N.eqb reservation_id (reservation_id r) s = None ->
   run (InMemoryReservationRepository.update r) s
   = (Raised (ValueError "Reservation not found"), s)) /\
  (storage_get N.eqb reservation_id (reservation_id r) s <> None ->
   fst (run (InMemoryReservationRepository.update r) s) = Returned r /\
   run (InMemoryReservationRepository.find_by_id (reservation_id r)) s'
   = (Returned (Some r), s') /\
   (forall id, id <> reservation_id r ->
      fst (run (InMemoryReservationRepository.find_by_id id) s')
      = fst (run (InMemoryReservationRepository.find_by_id id) s)) /\
   length s' = length s).
Proof.
  cbv zeta.
  unfold InMemoryReservationRepository.update,
    InMemoryReservationRepository.find_by_id, mutate, storage_mem;
    unfold_method.
  destruct (storage_get N.eqb reservation_id (reservation_id r) s) eqn:Hg;
    cbn [fst snd].
  - split; [discriminate|]. intros _.
    split; [reflexivity|]. split.
    { rewrite (storage_get_set_same N.eqb reservation_id N_eqb_eq).
      reflexivity. }
    split.
    { intros id Hid.
      rewrite (storage_get_set_other N.eqb reservation_id N_eqb_eq) by exact Hid.
      reflexivity. }
    rewrite <- (length_map reservation_id),
      (storage_set_keys N.eqb reservation_id N_eqb_eq).
    unfold storage_mem. rewrite Hg. apply length_map.
  - split; [reflexivity | intros H; contradiction].
Qed.

(** X25.  [delete] answers whether the id was stored: it returns [True]
    exactly when [find_by_id] found a reservation, after it [find_by_id]
    of the id finds nothing, every other id is found as before, and
    deleting an id that is not stored changes nothing. *)
Theorem delete_then_find_by_id (id : UUID) (s : ReservationStorage) :
  unique_keys reservation_id s ->
  let s' := snd (run (InMemoryReservationRepository.delete id) s) in
  fst (run (InMemoryReservationRepository.delete id) s)
  = Returned (match storage_get N.eqb reservation_id id s with
              | Some _ => true
              | None => false
              end) /\
  run (InMemoryReservationRepository.find_by_id id) s' = (Returned None, s') /\
  (forall other, other <> id ->
     fst (run (InMemoryReservationRepository.find_by_id other) s')
     = fst (run (InMemoryReservationRepository.find_by_id other) s)) /\
  (storage_get N.eqb reservation_id id s = None -> s' = s).
Proof.
  intros Hu. cbv zeta.
  unfold InMemoryReservationRepository.delete,
    InMemoryReservationRepository.find_by_id, mutate, storage_mem;
    unfold_method.
  destruct (storage_get N.eqb reservation_id id s) eqn:Hg; cbn [fst snd].
  - split; [reflexivity|]. split.
    { rewrite (storage_get_del_same N.eqb reservation_id N_eqb_eq) by exact Hu.
      reflexivity. }
    split; [|discriminate].
    intros other Hother.
    rewrite (storage_get_del_other N.eqb reservation_id N_eqb_eq) by exact Hother.
    reflexivity.
  - split; [reflexivity|]. split; [rewrite Hg; reflexivity|].
    split; [reflexivity | reflexivity].
Qed.

Lemma delete_then_find_by_id_witness :
  let r1 := mkReservation 1%N "AAAA1111" 7%N "DELUXE" (mkDateRange 110 112)
              (mkGuestCount 2 0) (mkMoney 2000000 "IDR")
              (mkCancellationPolicy "Standard" 80 24) PENDING ONLINE []
              0 0 "SYSTEM" 1 in
  let r2 := mkReservation 2%N "BBBB2222" 8%N "SUITE" (mkDateRange 120 121)
              (mkGuestCount 1 1) (mkMoney 1000000 "IDR")
              (mkCancellationPolicy "Standard" 80 24) CONFIRMED PHONE []
              0 0 "SYSTEM" 2 in
  run (InMemoryReservationRepository.delete 1%N) [r1; r2] = (Returned true, [r2]) /\
  run (InMemoryReservationRepository.find_by_id 1%N) [r2] = (Returned None, [r2]).
Proof.
  cbv zeta. split; [reflexivity|].
  assert (Hu : unique_keys reservation_id
            [mkReservation 1%N "AAAA1111" 7%N "DELUXE" (mkDateRange 110 112)
               (mkGuestCount 2 0) (mkMoney 2000000 "IDR")
               (mkCancellationPolicy "Standard" 80 24) PENDING ONLINE []
               0 0 "SYSTEM" 1;
             mkReservation 2%N "BBBB2222" 8%N "SUITE" (mkDateRange 120 121)
               (mkGuestCount 1 1) (mkMoney 1000000 "IDR")
               (mkCancellationPolicy "Standard" 80 24) CONFIRMED PHONE []
               0 0 "SYSTEM" 2]).
  { unfold unique_keys; simpl. constructor.
    - intros [H | []]. discriminate H.
    - constructor; [intros [] | constructor]. }
  destruct (delete_then_find_by_id 1%N _ Hu) as (_ & Hfind & _).
  exact Hfind.
Defined.

(** X26.  [find_by_confirmation_code] returns the first stored
    reservation, in insertion order, that carries the code, and [None]
    exactly when no stored reservation carries it; the storage is not
    changed. *)
Theorem find_by_confirmation_code_first_match
    (code : string) (s : ReservationStorage) :
  snd (run (InMemoryReservationRepository.find_by_confirmation_code code) s) = s /\
  match fst (run (InMemoryReservationRepository.find_by_confirmation_code code) s) with
  | Returned (Some r) =>
      confirmation_code r = code /\
      exists before after,
        s = (before ++ r :: after)%list /\
        forall x, In x before -> confirmation_code x <> code
  | Returned None => forall x, In x s -> confirmation_code x <> code
  | Raised _ => False
  end.
Proof.
  unfold InMemoryReservationRepository.find_by_confirmation_code; unfold_method.
  cbn [fst snd]. split; [reflexivity|].
  induction s as [|x s IH]; simpl.
  - intros x [].
  - destruct (String.eqb (confirmation_code x) code) eqn:E.
    + apply String.eqb_eq in E. split; [exact E|].
      exists [], s. split; [reflexivity | intros y []].
    + apply String.eqb_neq in E.
      destruct (find (fun reservation =>
                        String.eqb (confirmation_code reservation) code) s)
        as [r|] eqn:Hf.
      * destruct IH as (Hc & before & after & -> & Hb).
        split; [exact Hc|].
        exists (x :: before), after. split; [reflexivity|].
        intros y [<- | Hy]; [exact E | apply Hb; exact Hy].
      * intros y [<- | Hy]; [exact E | apply IH; exact Hy].
Qed.

(** ** AvailabilityService *)

Lemma storage_set_idem {K V} (key_eqb : K -> K -> bool) (key_of : V -> K)
    (v : V) (s : list V) :
  (forall a b, key_eqb a b = true <-> a = b) ->
  storage_set key_eqb key_of v (storage_set key_eqb key_of v s)
  = storage_set key_eqb key_of v s.
Proof.
  intros Heq. induction s as [|x s IH]; simpl.
  - rewrite (key_eqb_refl key_eqb Heq). reflexivity.
  - destruct (key_eqb (key_of x) (key_of v)) eqn:E; simpl.
    + rewrite (key_eqb_refl key_eqb Heq). reflexivity.
    + rewrite E, IH. reflexivity.
Qed.

(** No call on a ledger assigns the fields its key is read from. *)
Lemma Availability_exec_keeps_key (clk : Clock) (op : AvailabilityOp)
    (a : Availability) :
  AvKey_of (snd (run (Availability_exec clk op) a)) = AvKey_of a.
Proof.
  destruct op; simpl; availability_run; split_ifs; reflexivity.
Qed.

Section ServiceLoop.
Variable m : Method Availability unit.
Hypothesis m_keeps_key : forall a, AvKey_of (snd (run m a)) = AvKey_of a.

Lemma for_each_cons_run (k : AvKey) (ks : list AvKey) (s : AvailabilityStorage) :
  run (for_each_availability (k :: ks) m) s =
  match storage_get AvKey_eqb AvKey_of k s with
  | Some av =>
      match fst (run m av) with
      | Returned _ =>
          run (for_each_availability ks m)
            (storage_set AvKey_eqb AvKey_of (snd (run m av)) s)
      | Raised e =>
          (Raised e, storage_set AvKey_eqb AvKey_of (snd (run m av)) s)
      end
  | None => (Raised (ValueError "Availability not found"), s)
  end.
Proof.
  cbn [for_each_availability].
  unfold on_stored, InMemoryAvailabilityRepository.update, mutate, storage_mem.
  unfold run at 1. unfold bind at 1.
  destruct (storage_get AvKey_eqb AvKey_of k s) as [av|]; [|reflexivity].
  cbn [fst snd].
  destruct (fst (run m av)); [|reflexivity].
  unfold bind, attr, ret.
  rewrite (storage_get_set_same AvKey_eqb AvKey_of AvKey_eqb_eq).
  rewrite (storage_set_idem AvKey_eqb AvKey_of _ _ AvKey_eqb_eq).
  reflexivity.
Qed.

Lemma for_each_skips_head (x : Availability) (ks : list AvKey) :
  ~ In (AvKey_of x) ks ->
  forall s,
    run (for_each_availability ks m) (x :: s)
    = (fst (run (for_each_availability ks m) s),
       x :: snd (run (for_each_availability ks m) s)).
Proof.
  induction ks as [|k ks IH]; intros Hx s.
  - reflexivity.
  - assert (Hk : AvKey_of x <> k) by (intros E; apply Hx; left; symmetry; exact E).
    assert (Hrest : ~ In (AvKey_of x) ks) by (intros E; apply Hx; right; exact E).
    rewrite !for_each_cons_run. cbn [storage_get].
    rewrite (key_eqb_neq AvKey_eqb AvKey_eqb_eq _ _ Hk).
    destruct (storage_get AvKey_eqb AvKey_of k s) as [av|] eqn:Hg; [|reflexivity].
    destruct (storage_get_some AvKey_eqb AvKey_of AvKey_eqb_eq _ _ _ Hg)
      as [Hkey _].
    assert (Hk' : AvKey_of x <> AvKey_of (snd (run m av))).
    { rewrite m_keeps_key, Hkey. exact Hk. }
    cbn [storage_set].
    rewrite (key_eqb_neq AvKey_eqb AvKey_eqb_eq _ _ Hk').
    destruct (fst (run m av)); [apply IH; exact Hrest | reflexivity].
Qed.

Lemma for_each_is_sweep (selected : Availability -> bool) :
  forall s,
    unique_keys AvKey_of s ->
    run (for_each_availability (map AvKey_of (filter selected s)) m) s
    = sweep m selected s.
Proof.
  unfold unique_keys.
  induction s as [|a s IH]; intros Hu; [reflexivity|].
  inversion Hu as [|? ? Ha Hrest]; subst.
  assert (Hout : ~ In (AvKey_of a) (map AvKey_of (filter selected s))).
  { intros Hin. apply Ha. apply in_map_iff in Hin as (b & Hb & Hin).
    apply filter_In in Hin as [Hin _].
    rewrite <- Hb. apply in_map. exact Hin. }
  cbn [filter sweep]. destruct (selected a).
  - cbn [map]. rewrite for_each_cons_run. cbn [storage_get].
    rewrite (key_eqb_refl AvKey_eqb AvKey_eqb_eq).
    cbn [storage_set].
    assert (Hsame : AvKey_eqb (AvKey_of a) (AvKey_of (snd (run m a))) = true).
    { apply AvKey_eqb_eq. symmetry. apply m_keeps_key. }
    rewrite Hsame.
    destruct (run m a) as [[u|e] a'] eqn:Hrun; cbn [fst snd]; [|reflexivity].
    rewrite for_each_skips_head.
    + rewrite (IH Hrest). reflexivity.
    + change a' with (snd (Returned u, a')). rewrite <- Hrun, m_keeps_key.
      exact Hout.
  - rewrite for_each_skips_head by exact Hout.
    rewrite (IH Hrest). reflexivity.
Qed.

Lemma sweep_all_return (selected : Availability -> bool) (s : list Availability) :
  (forall a, In a s -> selected a = true -> fst (run m a) = Returned tt) ->
  sweep m selected s
  = (Returned tt,
     map (fun a => if selected a then snd (run m a) else a) s).
Proof.
  induction s as [|a s IH]; intros Hall; [reflexivity|].
  cbn [sweep map].
  assert (Hs : forall b, In b s -> selected b = true -> fst (run m b) = Returned tt)
    by (intros b Hb; apply Hall; right; exact Hb).
  rewrite (IH Hs). destruct (selected a) eqn:Hsel; [|reflexivity].
  pose proof (Hall a (or_introl eq_refl) Hsel) as Hret.
  destruct (run m a) as [[u|e] a']; simpl in Hret; [reflexivity | discriminate].
Qed.

Lemma sweep_first_raise (selected : Availability -> bool)
    (before after : list Availability) (a : Availability) (e : exn) :
  (forall b, In b before -> selected b = true -> fst (run m b) = Returned tt) ->
  selected a = true ->
  fst (run m a) = Raised e ->
  sweep m selected (before ++ a :: after)
  = (Raised e,
     (map (fun b => if selected b then snd (run m b) else b) before
      ++ snd (run m a) :: after)%list).
Proof.
  intros Hall Hsel Hraise.
  induction before as [|b before IH]; cbn [app sweep map].
  - rewrite Hsel. destruct (run m a) as [[u|e'] a']; simpl in Hraise;
      [discriminate|]. inversion Hraise; subst. reflexivity.
  - assert (Hs : forall c, In c before -> selected c = true ->
                           fst (run m c) = Returned tt)
      by (intros c Hc; apply Hall; right; exact Hc).
    rewrite (IH Hs). destruct (selected b) eqn:Hb; [|reflexivity].
    pose proof (Hall b (or_introl eq_refl) Hb) as Hret.
    destruct (run m b) as [[u|e'] b']; simpl in Hret; [reflexivity | discriminate].
Qed.

End ServiceLoop.

Lemma service_apply_run (clk : Clock) (room : string) (start_date end_date : date)
    (op : AvailabilityOp) (s : AvailabilityStorage) :
  unique_keys AvKey_of s ->
  run (AvailabilityService.apply clk room start_date end_date op) s =
  match filter (in_range room start_date end_date) s with
  | [] => (Returned false, s)
  | _ :: _ =>
      let res := sweep (Availability_exec clk op)
                   (in_range room start_date end_date) s in
      (match fst res with
       | Returned _ => Returned true
       | Raised e => Raised e
       end, snd res)
  end.
Proof.
  intros Hu.
  pose proof (for_each_is_sweep (Availability_exec clk op)
                (Availability_exec_keeps_key clk op)
                (in_range room start_date end_date) s Hu) as Hloop.
  destruct op; cbn [AvailabilityService.apply Availability_exec] in *;
    unfold AvailabilityService.reserve_rooms, AvailabilityService.release_rooms,
      AvailabilityService.block_rooms, AvailabilityService.unblock_rooms,
      InMemoryAvailabilityRepository.find_by_room_type;
    unfold run at 1; unfold bind at 1; unfold attr at 1;
    destruct (filter (in_range room start_date end_date) s) as [|a found] eqn:Hf;
    try reflexivity;
    cbn [map] in *; unfold bind at 1; unfold run in Hloop; rewrite Hloop;
    destruct (sweep _ _ s) as [[u|e] s']; reflexivity.
Qed.

Lemma filter_nonempty {A} (f : A -> bool) (a : A) (s : list A) :
  In a s -> f a = true -> filter f s <> [].
Proof.
  intros Hin Hf Hempty.
  assert (Ha : In a (filter f s)) by (apply filter_In; split; assumption).
  rewrite Hempty in Ha. exact Ha.
Qed.

Ltac solve_unique_keys :=
  unfold unique_keys, AvKey_of; simpl;
  repeat (constructor; [simpl; intuition congruence|]); constructor.

(** X27.  A service call over a range of dates applies the call to every
    ledger of the room type dated in the range and to no other: when
    every one of these ledgers admits the call, and there is at least
    one, [reserve_rooms], [release_rooms], [block_rooms] and
    [unblock_rooms] of the service return [True] and the storage holds
    each ledger in range as the call leaves it and every other ledger as
    it was. *)
Theorem service_call_reaches_every_date_in_range
    (clk : Clock) (room : string) (start_date end_date : date)
    (op : AvailabilityOp) (s : AvailabilityStorage) :
  unique_keys AvKey_of s ->
  (exists a, In a s /\ in_range room start_date end_date a = true) ->
  (forall a, In a s -> in_range room start_date end_date a = true ->
             fst (run (Availability_exec clk op) a) = Returned tt) ->
  run (AvailabilityService.apply clk room start_date end_date op) s
  = (Returned true,
     map (fun a => if in_range room start_date end_date a
                   then snd (run (Availability_exec clk op) a) else a) s).
Proof.
  intros Hu (a & Hin & Hsel) Hall.
  rewrite service_apply_run by exact Hu.
  pose proof (filter_nonempty _ a s Hin Hsel) as Hne.
  destruct (filter (in_range room start_date end_date) s); [contradiction|].
  rewrite (sweep_all_return (Availability_exec clk op) _ s Hall).
  reflexivity.
Qed.

Lemma service_call_reaches_every_date_in_range_witness :
  let clk := mkClock 500 0 in
  let s := [mkAvailability "DELUXE" 10 10 0 0 0 0 1;
            mkAvailability "SUITE" 11 4 0 0 0 0 1;
            mkAvailability "DELUXE" 11 10 3 0 0 0 1;
            mkAvailability "DELUXE" 12 10 0 0 0 0 1] in
  run (AvailabilityService.reserve_rooms clk "DELUXE" 10 11 2) s
  = (Returned true,
     [mkAvailability "DELUXE" 10 10 2 0 0 500 2;
      mkAvailability "SUITE" 11 4 0 0 0 0 1;
      mkAvailability "DELUXE" 11 10 5 0 0 500 2;
      mkAvailability "DELUXE" 12 10 0 0 0 0 1]).
Proof.
  cbv zeta.
  apply (service_call_reaches_every_date_in_range (mkClock 500 0) "DELUXE" 10 11
           (OpReserve 2)
           [mkAvailability "DELUXE" 10 10 0 0 0 0 1;
            mkAvailability "SUITE" 11 4 0 0 0 0 1;
            mkAvailability "DELUXE" 11 10 3 0 0 0 1;
            mkAvailability "DELUXE" 12 10 0 0 0 0 1]).
  - solve_unique_keys.
  - exists (mkAvailability "DELUXE" 10 10 0 0 0 0 1).
    split; [left; reflexivity | reflexivity].
  - intros a [<- | [<- | [<- | [<- | []]]]] Hsel;
      first [reflexivity | discriminate Hsel].
Defined.

(** X28.  A service call over a range has no rollback: when the call
    raises on one ledger of the range, the service raises the same
    exception, the ledgers of the range stored before it keep the change
    that was already applied to them, and the failing ledger and
    everything stored after it are as they were. *)
Theorem service_call_has_no_rollback
    (clk : Clock) (room : string) (start_date end_date : date)
    (op : AvailabilityOp) (before after : AvailabilityStorage)
    (a : Availability) (e : exn) :
  unique_keys AvKey_of (before ++ a :: after)%list ->
  (forall b, In b before -> in_range room start_date end_date b = true ->
             fst (run (Availability_exec clk op) b) = Returned tt) ->
  in_range room start_date end_date a = true ->
  fst (run (Availability_exec clk op) a) = Raised e ->
  run (AvailabilityService.apply clk room start_date end_date op)
      (before ++ a :: after)%list
  = (Raised e,
     (map (fun b => if in_range room start_date end_date b
                    then snd (run (Availability_exec clk op) b) else b) before
      ++ a :: after)%list).
Proof.
  intros Hu Hall Hsel Hraise.
  rewrite service_apply_run by exact Hu.
  assert (Hin : In a (before ++ a :: after)%list)
    by (apply in_or_app; right; left; reflexivity).
  pose proof (filter_nonempty _ a _ Hin Hsel) as Hne.
  destruct (filter (in_range room start_date end_date) (before ++ a :: after)%list);
    [contradiction|].
  rewrite (sweep_first_raise (Availability_exec clk op) _ before after a e
             Hall Hsel Hraise).
  cbn [fst snd].
  assert (Hsame : snd (run (Availability_exec clk op) a) = a).
  { destruct (run (Availability_exec clk op) a) as [o a'] eqn:Hrun.
    simpl in Hraise. subst o. simpl.
    eapply Availability_exec_raise_unchanged. exact Hrun. }
  rewrite Hsame. reflexivity.
Qed.

Lemma service_call_has_no_rollback_witness :
  let clk := mkClock 500 0 in
  run (AvailabilityService.reserve_rooms clk "DELUXE" 10 12 2)
      [mkAvailability "DELUXE" 10 10 0 0 0 0 1;
       mkAvailability "DELUXE" 11 10 10 0 0 0 4;
       mkAvailability "DELUXE" 12 10 0 0 0 0 1]
  = (Raised (ValueError "Insufficient availability"),
     [mkAvailability "DELUXE" 10 10 2 0 0 500 2;
      mkAvailability "DELUXE" 11 10 10 0 0 0 4;
      mkAvailability "DELUXE" 12 10 0 0 0 0 1]).
Proof.
  cbv zeta.
  apply (service_call_has_no_rollback (mkClock 500 0) "DELUXE" 10 12 (OpReserve 2)
           [mkAvailability "DELUXE" 10 10 0 0 0 0 1]
           [mkAvailability "DELUXE" 12 10 0 0 0 0 1]
           (mkAvailability "DELUXE" 11 10 10 0 0 0 4)
           (ValueError "Insufficient availability")).
  - solve_unique_keys.
  - intros b [<- | []] _. reflexivity.
  - reflexivity.
  - reflexivity.
Defined.

(** X29.  Checking before reserving is enough: when
    [AvailabilityService.check_availability] answers [True] for a range
    and a count, [AvailabilityService.reserve_rooms] for the same range
    and count returns [True], and every ledger of the range has the count
    added to its [reserved_rooms]. *)
Theorem checked_range_can_be_reserved
    (clk : Clock) (room : string) (start_date end_date : date) (count : Z)
    (s : AvailabilityStorage) :
  unique_keys AvKey_of s ->
  fst (run (AvailabilityService.check_availability room start_date end_date count) s)
  = Returned true ->
  run (AvailabilityService.reserve_rooms clk room start_date end_date count) s
  = (Returned true,
     map (fun a =>
            if in_range room start_date end_date a
            then mkAvailability (av_room_type_id a) (availability_date a)
                   (total_rooms a) (reserved_rooms a + count) (blocked_rooms a)
                   (overbooking_threshold a) (utcnow clk) (av_version a + 1)
            else a) s).
Proof.
  intros Hu Hcheck.
  unfold AvailabilityService.check_availability in Hcheck.
  unfold run, bind, attr, ret in Hcheck. cbn [fst] in Hcheck.
  destruct (filter (in_range room start_date end_date) s) as [|a0 found] eqn:Hf;
    [discriminate|].
  cbn [fst] in Hcheck. injection Hcheck as Hall.
  change (forallb (fun av => check_availability av count) (a0 :: found) = true)
    in Hall.
  rewrite <- Hf in Hall. rewrite forallb_forall in Hall.
  assert (Hadmit : forall a, In a s -> in_range room start_date end_date a = true ->
                             check_availability a count = true).
  { intros a Hin Hsel. apply Hall. apply filter_In. split; assumption. }
  change (AvailabilityService.reserve_rooms clk room start_date end_date count)
    with (AvailabilityService.apply clk room start_date end_date (OpReserve count)).
  rewrite service_apply_run by exact Hu. rewrite Hf.
  rewrite (sweep_all_return (Availability_exec clk (OpReserve count))
             (in_range room start_date end_date) s).
  - cbn [fst snd]. f_equal. apply map_ext_in. intros a Hin.
    destruct (in_range room start_date end_date a) eqn:Hsel; [|reflexivity].
    cbn [Availability_exec]. rewrite reserve_rooms_run, (Hadmit a Hin Hsel).
    reflexivity.
  - intros a Hin Hsel. cbn [Availability_exec].
    rewrite reserve_rooms_run, (Hadmit a Hin Hsel). reflexivity.
Qed.

Lemma checked_range_can_be_reserved_witness :
  let clk := mkClock 500 0 in
  let s := [mkAvailability "DELUXE" 10 10 9 0 2 0 1;
            mkAvailability "DELUXE" 11 10 3 0 0 0 1] in
  run (AvailabilityService.check_availability "DELUXE" 10 11 3) s
  = (Returned true, s) /\
  run (AvailabilityService.reserve_rooms clk "DELUXE" 10 11 3) s
  = (Returned true,
     [mkAvailability "DELUXE" 10 10 12 0 2 500 2;
      mkAvailability "DELUXE" 11 10 6 0 0 500 2]).
Proof.
  cbv zeta. split; [reflexivity|].
  apply (checked_range_can_be_reserved (mkClock 500 0) "DELUXE" 10 11 3
           [mkAvailability "DELUXE" 10 10 9 0 2 0 1;
            mkAvailability "DELUXE" 11 10 3 0 0 0 1]).
  - solve_unique_keys.
  - reflexivity.
Defined.

(** X30.  With no ledger of the room type dated in the range, the service
    neither raises nor changes anything: [check_availability] and the
    four range calls all return [False]. *)
Theorem service_call_on_empty_range
    (clk : Clock) (room : string) (start_date end_date : date)
    (op : AvailabilityOp) (required_count : Z) (s : AvailabilityStorage) :
  (forall a, In a s -> in_range room start_date end_date a = false) ->
  run (AvailabilityService.apply clk room start_date end_date op) s
  = (Returned false, s) /\
  run (AvailabilityService.check_availability room start_date end_date
         required_count) s
  = (Returned false, s).
Proof.
  intros Hnone.
  assert (Hf : filter (in_range room start_date end_date) s = []).
  { induction s as [|a s IH]; [reflexivity|]. cbn [filter].
    rewrite (Hnone a (or_introl eq_refl)).
    apply IH. intros b Hb. apply Hnone. right. exact Hb. }
  split.
  - destruct op; cbn [AvailabilityService.apply];
      unfold AvailabilityService.reserve_rooms, AvailabilityService.release_rooms,
        AvailabilityService.block_rooms, AvailabilityService.unblock_rooms,
        InMemoryAvailabilityRepository.find_by_room_type;
      unfold run, bind, attr; rewrite Hf; reflexivity.
  - unfold AvailabilityService.check_availability.
    unfold run, bind, attr. rewrite Hf. reflexivity.
Qed.

Lemma service_call_on_empty_range_witness :
  let s := [mkAvailability "SUITE" 11 4 0 0 0 0 1;
            mkAvailability "DELUXE" 20 10 0 0 0 0 1] in
  run (AvailabilityService.apply (mkClock 500 0) "DELUXE" 10 12 (OpBlock 1 "paint")) s
  = (Returned false, s) /\
  run (AvailabilityService.check_availability "DELUXE" 10 12 1) s
  = (Returned false, s).
Proof.
  cbv zeta.
  apply (service_call_on_empty_range (mkClock 500 0) "DELUXE" 10 12
           (OpBlock 1 "paint") 1
           [mkAvailability "SUITE" 11 4 0 0 0 0 1;
            mkAvailability "DELUXE" 20 10 0 0 0 0 1]).
  intros a [<- | [<- | []]]; reflexivity.
Defined.
